(** * SharePoint2s3: the folder walk, the path mapper and the result counts

    A shallow embedding of [sharepoint2s3.py] (class [SharePointToS3]) and
    the properties of its path mapping, its per-file copy step and its
    recursive folder traversal.

    Python strings are modelled as [string], Python integers as [Z],
    [dict]s with string keys as [gmap string _], byte contents as
    [list Byte.byte].  The two SDK clients held by the object ([self.ctx]
    and [self.s3_client]) are modelled as oracles: each call is answered,
    by its arguments, with a value or with a raised exception.  Every call
    made on them and every log record emitted is appended to a trace, from
    which the content of the destination is recovered.

    Exceptions are instances of Python's [Exception], the class that both
    [except] clauses of [copy_folder] catch; the walk is modelled a second
    time over any Python exception ([PyExn]: also those that are not
    instances of [Exception] and those whose [str] raises) and the two
    models are shown to agree where the first applies.  The [logging] calls
    do not raise.  The recursion of [copy_folder] follows the folder tree that the
    SharePoint client reports, so the model takes a bound on its depth
    (fuel); running out of it is an outcome of its own, distinct from
    returning and from raising. *)

From Stdlib Require Import ZArith Strings.Ascii Strings.Byte.
From Stdlib Require DecimalString.
From stdpp Require Import base option list gmap strings.

Local Open Scope Z_scope.

(** ** Python string primitives used by the source *)

(** [c in chars], for the character-set argument of [str.lstrip],
    [str.rstrip]. *)
Fixpoint in_chars (c : ascii) (chars : string) : bool :=
  match chars with
  | EmptyString => false
  | String a chars' => if decide (c = a) then true else in_chars c chars'
  end.

(** [s.startswith(prefix)] *)
Fixpoint startswith (s prefix : string) {struct prefix} : bool :=
  match prefix, s with
  | EmptyString, _ => true
  | String _ _, EmptyString => false
  | String a prefix', String b s' =>
      if decide (a = b) then startswith s' prefix' else false
  end.

(** [s.endswith(suffix)] for a one-character suffix. *)
Fixpoint endswith_char (s : string) (c : ascii) : bool :=
  match s with
  | EmptyString => false
  | String a EmptyString => bool_decide (a = c)
  | String _ s' => endswith_char s' c
  end.

(** [s[n:]] *)
Fixpoint slice_from (n : nat) (s : string) {struct n} : string :=
  match n, s with
  | O, _ => s
  | S _, EmptyString => EmptyString
  | S n', String _ s' => slice_from n' s'
  end.

(** [s.lstrip(chars)] *)
Fixpoint lstrip (s chars : string) : string :=
  match s with
  | EmptyString => EmptyString
  | String c s' => if in_chars c chars then lstrip s' chars else s
  end.

(** [s.rstrip(chars)] *)
Fixpoint rstrip (s chars : string) : string :=
  match s with
  | EmptyString => EmptyString
  | String c s' =>
      match rstrip s' chars with
      | EmptyString => if in_chars c chars then EmptyString else String c EmptyString
      | r => String c r
      end
  end.

(** [k] copies of the separator ["/"]. *)
Fixpoint seps (k : nat) : string :=
  match k with
  | O => EmptyString
  | S k' => String "/"%char (seps k')
  end.

(** ** Exceptions and outcomes *)

(** The exceptions (subclasses of Python's [Exception]) that the modelled
    code can meet: a [KeyError] from indexing a [properties] dict, and
    errors raised by the SharePoint or the S3 client. *)
Inductive Exn : Type :=
  | KeyError (key : string)
  | ClientError (msg : string).

(** [str(e)] *)
Definition str_exn (e : Exn) : string :=
  match e with
  | KeyError k => "'" +:+ k +:+ "'"
  | ClientError msg => msg
  end.

(** Result of evaluating a statement or call: a value, a raised exception,
    or [OutOfFuel] when the recursion budget of the model is exhausted. *)
Inductive Outcome (A : Type) : Type :=
  | Ret (a : A)
  | Raise (e : Exn)
  | OutOfFuel.
Arguments Ret {A} a.
Arguments Raise {A} e.
Arguments OutOfFuel {A}.

(** Answer of an SDK client to a call: it returns or it raises. *)
Inductive Reply (A : Type) : Type :=
  | Returns (a : A)
  | Raises (e : Exn).
Arguments Returns {A} a.
Arguments Raises {A} e.

(** ** Data model *)

Definition bytes : Type := list Byte.byte.

(** A SharePoint file or folder object: only its [properties] dict is read. *)
Record SPObject : Type := mkObj { properties : gmap string string }.

(** A loaded folder: [folder.files] and [folder.folders]. *)
Record Folder : Type := mkFolder {
  files : list SPObject;
  folders : list SPObject
}.

(** [self.ctx]: the SharePoint client.  [get_folder] stands for lines
    115-119 (resolve the folder, load it, its files and its folders, run the
    query); [open_binary] for [File.open_binary(self.ctx, url)]. *)
Record ClientContext : Type := mkCtx {
  get_folder : string → Reply Folder;
  open_binary : string → Reply bytes
}.

(** [self.s3_client]: [put_object(Bucket, Key, Body)] either succeeds or
    raises. *)
Record S3Client : Type := mkS3 {
  put_object : string → string → bytes → Reply unit
}.

Record SharePointToS3 : Type := mkSelf {
  sharepoint_url : string;
  username : string;
  password : string;
  s3_bucket : string;
  s3_prefix : string;
  ctx : ClientContext;
  s3_client : S3Client
}.

(** (success_count, error_count) *)
Definition TransferResult : Type := (Z * Z)%type.

(** Lines 147-148: adding a subtree's counts to the running counts. *)
Definition merge (a b : TransferResult) : TransferResult :=
  (a.1 + b.1, a.2 + b.2).

(** ** Path mapper *)

Section Embedding.

(** [urlparse(url).path] of the Python standard library. *)
Variable urlparse_path : string → string.

(** Line 47: [s3_prefix.rstrip('/') + '/' if s3_prefix else ""] *)
Definition normalize_prefix (prefix : string) : string :=
  if decide (prefix = "") then "" else rstrip prefix "/" +:+ "/".

(** The field assignments of [__init__] (lines 43-47). *)
Definition __init__ (url user pw bucket prefix : string)
    (c : ClientContext) (s3 : S3Client) : SharePointToS3 :=
  {| sharepoint_url := url; username := user; password := pw;
     s3_bucket := bucket; s3_prefix := normalize_prefix prefix;
     ctx := c; s3_client := s3 |}.

(** Lines 95-98 with [site_url] given. *)
Definition relative_path (site_url sharepoint_path : string) : string :=
  if startswith sharepoint_path site_url
  then lstrip (slice_from (String.length site_url) sharepoint_path) "/"
  else lstrip sharepoint_path "/".

Definition _get_relative_path (self : SharePointToS3) (sharepoint_path : string) : string :=
  let site_url := urlparse_path (sharepoint_url self) in
  relative_path site_url sharepoint_path.

(** Lines 124-125: the destination key of a file. *)
Definition s3_key_of (self : SharePointToS3) (server_relative_url : string) : string :=
  let relative_path := _get_relative_path self server_relative_url in
  s3_prefix self +:+ relative_path.

(** ** Effects: a trace of external calls, the frame's counters, exceptions *)

(** What the walk does to the outside world, in order. *)
Inductive Event : Type :=
  | EvGetFolder (folder_url : string)
  | EvOpenBinary (server_relative_url : string)
  | EvPutObject (bucket key : string) (body : bytes)
  | EvLogInfo (msg : string)
  | EvLogError (msg : string).

(** The two local variables of a [copy_folder] frame that are updated in
    place and read again in the [except] clause. *)
Record Locals : Type := mkLocals { success_count : Z; error_count : Z }.

(** A statement run in a frame: the events it emits, the frame after it,
    and how it ended. *)
Definition M (A : Type) : Type := Locals → list Event * Locals * Outcome A.

#[global] Instance M_ret : MRet M := λ A a l, ([], l, Ret a).

#[global] Instance M_bind : MBind M := λ A B f m l,
  match m l with
  | (t1, l1, Ret a) =>
      match f a l1 with (t2, l2, o) => (t1 ++ t2, l2, o) end
  | (t1, l1, Raise e) => (t1, l1, Raise e)
  | (t1, l1, OutOfFuel) => (t1, l1, OutOfFuel)
  end.

Definition raise {A} (e : Exn) : M A := λ l, ([], l, Raise e).

(** [try: body except Exception as e: handler e].  Exhausted fuel is not a
    Python exception and is not caught. *)
Definition try_except {A} (body : M A) (handler : Exn → M A) : M A := λ l,
  match body l with
  | (t1, l1, Raise e) =>
      match handler e l1 with (t2, l2, o) => (t1 ++ t2, l2, o) end
  | r => r
  end.

Definition emit (ev : Event) : M unit := λ l, ([ev], l, Ret ()).

(** The answer of a client, as the end of the calling statement. *)
Definition of_reply {A} (r : Reply A) : M A := λ l,
  ([], l, match r with Returns a => Ret a | Raises e => Raise e end).

(** A call of another Python function: it runs in its own frame. *)
Definition call {A} (r : list Event * Outcome A) : M A := λ l, (r.1, l, r.2).

(** [d[key]] on a dict. *)
Definition getitem (d : gmap string string) (key : string) : M string :=
  match d !! key with
  | Some v => mret v
  | None => raise (KeyError key)
  end.

Definition logger_info (msg : string) : M unit := emit (EvLogInfo msg).
Definition logger_error (msg : string) : M unit := emit (EvLogError msg).

(** [success_count += n] and [error_count += n] *)
Definition add_success (n : Z) : M unit := λ l,
  ([], {| success_count := success_count l + n; error_count := error_count l |}, Ret ()).
Definition add_error (n : Z) : M unit := λ l,
  ([], {| success_count := success_count l; error_count := error_count l + n |}, Ret ()).

Definition read_locals : M Locals := λ l, ([], l, Ret l).

(** [for x in xs: body x] *)
Fixpoint for_each {A} (xs : list A) (body : A → M unit) : M unit :=
  match xs with
  | [] => mret ()
  | x :: xs' => body x ;; for_each xs' body
  end.

Definition call_get_folder (self : SharePointToS3) (folder_url : string) : M Folder :=
  emit (EvGetFolder folder_url) ;; of_reply (get_folder (ctx self) folder_url).

Definition call_open_binary (self : SharePointToS3) (url : string) : M bytes :=
  emit (EvOpenBinary url) ;; of_reply (open_binary (ctx self) url).

Definition call_put_object (self : SharePointToS3) (bucket key : string) (body : bytes) : M unit :=
  emit (EvPutObject bucket key body) ;;
  of_reply (put_object (s3_client self) bucket key body).

(** ** The folder walk *)

(** Line 144: the names that are not descended into. *)
Definition special_folders : list string := ["."; ".."; "Forms"].

(** Lines 123-140: the body of the loop over [folder.files]. *)
Definition copy_one (self : SharePointToS3) (file_obj : SPObject) : M unit :=
  try_except
    (url ← getitem (properties file_obj) "ServerRelativeUrl";
     let relative_path := _get_relative_path self url in
     let s3_key := s3_prefix self +:+ relative_path in
     url' ← getitem (properties file_obj) "ServerRelativeUrl";
     file_content ← call_open_binary self url';
     logger_info ("Copying file: " +:+ relative_path +:+ " -> s3://"
                  +:+ s3_bucket self +:+ "/" +:+ s3_key) ;;
     call_put_object self (s3_bucket self) s3_key file_content ;;
     add_success 1)
    (λ e,
     url ← getitem (properties file_obj) "ServerRelativeUrl";
     logger_error ("Error copying file " +:+ url +:+ ": " +:+ str_exn e) ;;
     add_error 1).

(** Lines 144-148: the body of the loop over [folder.folders]; [recurse] is
    [self.copy_folder]. *)
Definition visit_subfolder (recurse : string → list Event * Outcome TransferResult)
    (subfolder : SPObject) : M unit :=
  name ← getitem (properties subfolder) "Name";
  if bool_decide (name ∉ special_folders) then
    subfolder_url ← getitem (properties subfolder) "ServerRelativeUrl";
    '(sub_success, sub_error) ← call (recurse subfolder_url);
    add_success sub_success ;;
    add_error sub_error
  else mret ().

(** Lines 113-154.  [fuel] bounds the depth of the recursion. *)
Fixpoint copy_folder (fuel : nat) (self : SharePointToS3) (folder_url : string)
    : list Event * Outcome TransferResult :=
  match fuel with
  | O => ([], OutOfFuel)
  | S fuel' =>
      let body : M TransferResult :=
        try_except
          (folder ← call_get_folder self folder_url;
           for_each (files folder) (copy_one self) ;;
           for_each (folders folder) (visit_subfolder (copy_folder fuel' self)) ;;
           l ← read_locals;
           mret (success_count l, error_count l))
          (λ e,
           logger_error ("Error processing folder " +:+ folder_url +:+ ": " +:+ str_exn e) ;;
           l ← read_locals;
           mret (success_count l, error_count l + 1)) in
      match body {| success_count := 0; error_count := 0 |} with
      | (t, _, o) => (t, o)
      end
  end.

(** Lines 167-176. *)
Definition start_transfer (fuel : nat) (self : SharePointToS3) (relative_folder_path : string)
    : list Event * Outcome TransferResult :=
  let site_url := urlparse_path (sharepoint_url self) in
  let site_url := if endswith_char site_url "/" then site_url else site_url +:+ "/" in
  let server_relative_url := site_url +:+ lstrip relative_folder_path "/" in
  let r := copy_folder fuel self server_relative_url in
  (EvLogInfo ("Starting transfer from SharePoint folder: " +:+ server_relative_url)
   :: EvLogInfo ("Target S3 location: s3://" +:+ s3_bucket self +:+ "/" +:+ s3_prefix self)
   :: r.1, r.2).

End Embedding.

(** ** The destination store *)

(** The objects held by the destination after the puts of a trace, starting
    from [store]: S3 replaces the object under a key on every successful
    put and leaves the store alone when the put fails. *)
Fixpoint store_after (s3 : S3Client) (t : list Event)
    (store : gmap (string * string) bytes) : gmap (string * string) bytes :=
  match t with
  | [] => store
  | EvPutObject bucket key body :: t' =>
      match put_object s3 bucket key body with
      | Returns _ => store_after s3 t' (<[(bucket, key) := body]> store)
      | Raises _ => store_after s3 t' store
      end
  | _ :: t' => store_after s3 t' store
  end.

(** The write attempts of a trace. *)
Definition put_attempts (t : list Event) : list (string * string * bytes) :=
  omap (λ ev, match ev with
              | EvPutObject b k body => Some (b, k, body)
              | _ => None
              end) t.

(** ** Observations on traces and on the clients' answers *)

(** The files fetched and the folders listed in a trace, in order. *)
Definition fetch_attempts (t : list Event) : list string :=
  omap (λ ev, match ev with EvOpenBinary u => Some u | _ => None end) t.

Definition folder_requests (t : list Event) : list string :=
  omap (λ ev, match ev with EvGetFolder u => Some u | _ => None end) t.

Definition error_records (t : list Event) : list string :=
  omap (λ ev, match ev with EvLogError m => Some m | _ => None end) t.

Section Observations.

Variable urlparse_path : string → string.
Variable self : SharePointToS3.

(** The write that copying [file_obj] attempts: none when its path is
    missing or its fetch raises. *)
Definition put_of_file (file_obj : SPObject) : option (string * string * bytes) :=
  match properties file_obj !! "ServerRelativeUrl" with
  | Some u =>
      match open_binary (ctx self) u with
      | Returns content => Some (s3_bucket self, s3_key_of urlparse_path self u, content)
      | Raises _ => None
      end
  | None => None
  end.

(** The exception, if any, that the fetch or the write of [file_obj]
    raises. *)
Definition file_failure (file_obj : SPObject) : option Exn :=
  match properties file_obj !! "ServerRelativeUrl" with
  | Some u =>
      match open_binary (ctx self) u with
      | Returns content =>
          match put_object (s3_client self) (s3_bucket self)
                  (s3_key_of urlparse_path self u) content with
          | Returns _ => None
          | Raises e => Some e
          end
      | Raises e => Some e
      end
  | None => Some (KeyError "ServerRelativeUrl")
  end.

(** The fetch and the write of [file_obj] both succeed. *)
Definition file_copies (file_obj : SPObject) : bool :=
  match file_failure file_obj with None => true | Some _ => false end.

(** The counts of a list of files: those that copy, those that fail. *)
Definition files_result (fs : list SPObject) : TransferResult :=
  (Z.of_nat (length (filter (λ f, file_copies f = true) fs)),
   Z.of_nat (length (filter (λ f, file_copies f = false) fs))).

(** The subfolder's name is one of the special names. *)
Definition is_special (subfolder : SPObject) : bool :=
  match properties subfolder !! "Name" with
  | Some name => bool_decide (name ∈ special_folders)
  | None => false
  end.

(** The folder tree below [folder_url], as the SharePoint client answers,
    has fewer than [d] levels below the folders that are descended into. *)
Fixpoint tree_height_lt (d : nat) (folder_url : string) : bool :=
  match d with
  | O => false
  | S d' =>
      match get_folder (ctx self) folder_url with
      | Raises _ => true
      | Returns folder =>
          forallb (λ subfolder,
                     match properties subfolder !! "Name",
                           properties subfolder !! "ServerRelativeUrl" with
                     | Some name, Some u =>
                         bool_decide (name ∈ special_folders) || tree_height_lt d' u
                     | _, _ => true
                     end) (folders folder)
      end
  end.

End Observations.

Definition has_path (o : SPObject) : Prop :=
  is_Some (properties o !! "ServerRelativeUrl").

Definition counts (l : Locals) : TransferResult := (success_count l, error_count l).

Definition frame0 : Locals := {| success_count := 0; error_count := 0 |}.

Definition nonneg (l : Locals) : Prop := 0 <= success_count l ∧ 0 <= error_count l.

(** [subfolder] carries a name that is not special and its path, and the
    recursive call on that path returns the counts [r.2], emitting [r.1]. *)
Definition descends_to (recurse : string → list Event * Outcome TransferResult)
    (subfolder : SPObject) (r : list Event * TransferResult) : Prop :=
  ∃ name u,
    properties subfolder !! "Name" = Some name
    ∧ (name ∉ special_folders)
    ∧ properties subfolder !! "ServerRelativeUrl" = Some u
    ∧ recurse u = (r.1, Ret (r.2)).

(** The frame after [r] is added to its counters. *)
Definition bump (l : Locals) (r : TransferResult) : Locals :=
  {| success_count := success_count l + r.1; error_count := error_count l + r.2 |}.

(** ** The entry points: the constructor in full and [main] *)

(** Lines 167-171: the server-relative URL at which [start_transfer]
    starts the walk. *)
Definition start_url (urlparse_path : string → string) (self : SharePointToS3)
    (relative_folder_path : string) : string :=
  let site_url := urlparse_path (sharepoint_url self) in
  let site_url := if endswith_char site_url "/" then site_url else site_url +:+ "/" in
  site_url +:+ lstrip relative_folder_path "/".

(** The write was accepted by the S3 client. *)
Definition put_accepted (s3 : S3Client) (p : string * string * bytes) : bool :=
  match put_object s3 p.1.1 p.1.2 p.2 with
  | Returns _ => true
  | Raises _ => false
  end.

Definition accepted_puts (s3 : S3Client) (t : list Event) : list (string * string * bytes) :=
  filter (λ p, put_accepted s3 p = true) (put_attempts t).

(** The counters of a frame moved from [l] to [l'] by what the trace [t]
    shows: one success per accepted write, one error per error record. *)
Definition accounted (s3 : S3Client) (l : Locals) (t : list Event) (l' : Locals) : Prop :=
  success_count l' = success_count l + Z.of_nat (length (accepted_puts s3 t))
  ∧ error_count l' = error_count l + Z.of_nat (length (error_records t)).

(** Exceptions met while the object is set up: [botocore]'s [ClientError],
    whose [response] may carry an error code, is told apart from the other
    exceptions by the second [try] of [__init__]. *)
Inductive SetupExn : Type :=
  | BotoClientError (code : option string) (msg : string)
  | OtherException (e : Exn).

(** [str(e)] *)
Definition str_setup_exn (e : SetupExn) : string :=
  match e with
  | BotoClientError _ msg => msg
  | OtherException e => str_exn e
  end.

Inductive SetupReply (A : Type) : Type :=
  | SetupReturns (a : A)
  | SetupRaises (e : SetupExn).
Arguments SetupReturns {A} a.
Arguments SetupRaises {A} e.

(** The SDK calls of [__init__].  [sp_connect] stands for lines 51-55 and
    answers with the client context and [ctx.web.properties];
    [boto_client] for lines 63-67, with the profile name when one is used;
    [head_bucket] for line 70. *)
Record Sdk : Type := mkSdk {
  sp_connect : string → string → string → SetupReply (ClientContext * gmap string string);
  boto_client : option string → SetupReply S3Client;
  head_bucket : S3Client → string → SetupReply unit
}.

(** [SharePointToS3(...)]: lines 43-83 in full.  Each [except] clause logs
    and re-raises. *)
Definition new_SharePointToS3 (sdk : Sdk) (url user pw bucket prefix : string)
    (aws_profile : option string) : list Event * SetupReply SharePointToS3 :=
  let auth_failed e :=
    ([EvLogError ("Failed to authenticate with SharePoint: " +:+ str_setup_exn e)],
     SetupRaises e) in
  match sp_connect sdk url user pw with
  | SetupRaises e => auth_failed e
  | SetupReturns (c, web_properties) =>
      match web_properties !! "Title" with
      | None => auth_failed (OtherException (KeyError "Title"))
      | Some title =>
          let connected := EvLogInfo ("Connected to SharePoint site: " +:+ title) in
          let s3_failed e :=
            ([connected;
              EvLogError
                match e with
                | BotoClientError (Some "404") _ =>
                    "S3 bucket " +:+ bucket +:+ " does not exist"
                | BotoClientError (Some "403") _ =>
                    "No permission to access S3 bucket " +:+ bucket
                | BotoClientError _ _ =>
                    "Error accessing S3 bucket: " +:+ str_setup_exn e
                | OtherException _ =>
                    "Failed to connect to S3: " +:+ str_setup_exn e
                end],
             SetupRaises e) in
          let profile :=
            match aws_profile with
            | Some name => if decide (name = "") then None else Some name
            | None => None
            end in
          match boto_client sdk profile with
          | SetupRaises e => s3_failed e
          | SetupReturns s3 =>
              match head_bucket sdk s3 bucket with
              | SetupRaises e => s3_failed e
              | SetupReturns _ =>
                  ([connected; EvLogInfo ("Connected to S3 bucket: " +:+ bucket)],
                   SetupReturns (__init__ url user pw bucket prefix c s3))
              end
          end
      end
  end.

(** [args = parser.parse_args()] *)
Record Args : Type := mkArgs {
  arg_sharepoint_url : string;
  arg_sharepoint_username : string;
  arg_sharepoint_password : string;
  arg_sharepoint_folder : string;
  arg_s3_bucket : string;
  arg_s3_prefix : string;
  arg_aws_profile : option string;
  arg_verbose : bool
}.

(** [str(n)] for an integer. *)
Definition str_int (n : Z) : string :=
  DecimalString.NilEmpty.string_of_int (Z.to_int n).

(** Lines 193-218, from the parsed arguments on.  The value is the exit
    status of the process: [sys.exit(1)] gives 1, returning from [main]
    gives 0.  No record is logged below level INFO, so the level set for
    [--verbose] does not show. *)
Definition main (urlparse_path : string → string) (sdk : Sdk) (fuel : nat) (args : Args)
    : list Event * Outcome Z :=
  let failed t msg := (t ++ [EvLogError ("Transfer failed: " +:+ msg)], Ret 1) in
  match new_SharePointToS3 sdk (arg_sharepoint_url args) (arg_sharepoint_username args)
          (arg_sharepoint_password args) (arg_s3_bucket args) (arg_s3_prefix args)
          (arg_aws_profile args) with
  | (t1, SetupRaises e) => failed t1 (str_setup_exn e)
  | (t1, SetupReturns transfer) =>
      match start_transfer urlparse_path fuel transfer (arg_sharepoint_folder args) with
      | (t2, Ret (success_count, error_count)) =>
          (t1 ++ t2
             ++ [EvLogInfo ("Transfer completed. Files copied successfully: "
                            +:+ str_int success_count +:+ ", Errors: "
                            +:+ str_int error_count)],
           Ret (if decide (error_count > 0) then 1 else 0))
      | (t2, Raise e) => failed (t1 ++ t2) (str_exn e)
      | (t2, OutOfFuel) => (t1 ++ t2, OutOfFuel)
      end
  end.

Section Success.

Variable urlparse_path : string → string.
Variable self : SharePointToS3.

(** No call that the walk from [folder_url] makes fails, within [d]
    levels: the folder is listed; each of its files carries its path, is
    fetched and is written; each of its subfolders carries a name and,
    unless the name is special, a path from which the same holds one level
    less.  Nothing is asked of the clients at other arguments. *)
Fixpoint walk_succeeds (d : nat) (folder_url : string) : bool :=
  match d with
  | O => false
  | S d' =>
      match get_folder (ctx self) folder_url with
      | Raises _ => false
      | Returns folder =>
          forallb (file_copies urlparse_path self) (files folder)
          && forallb (λ subfolder,
                        match properties subfolder !! "Name" with
                        | None => false
                        | Some name =>
                            bool_decide (name ∈ special_folders)
                            || match properties subfolder !! "ServerRelativeUrl" with
                               | Some u => walk_succeeds d' u
                               | None => false
                               end
                        end) (folders folder)
      end
  end.

(** The write attempts of a trace are, in order, one for each file
    fetched: the content fetched, to the configured bucket under the key
    of the file, and accepted by the S3 client. *)
Definition written_once (t : list Event) : Prop :=
  Forall2 (λ u p, ∃ c, open_binary (ctx self) u = Returns c
                     ∧ put_object (s3_client self) (s3_bucket self)
                         (s3_key_of urlparse_path self u) c = Returns ()
                     ∧ p = (s3_bucket self, s3_key_of urlparse_path self u, c))
          (fetch_attempts t) (put_attempts t).

(** A run without error: no error counted or logged, one success per file
    fetched, each fetched file written once. *)
Definition clean (l : Locals) (t : list Event) (l' : Locals) : Prop :=
  error_count l' = error_count l
  ∧ error_records t = []
  ∧ success_count l' = success_count l + Z.of_nat (length (fetch_attempts t))
  ∧ written_once t.

End Success.

(** ** The walk under any Python exception *)

(** What a call may raise in Python at large: an instance of [Exception]
    whose [str] returns (the exceptions of [Exn]); an instance of
    [Exception] whose [__str__] itself raises; or an exception that is not
    an instance of [Exception] ([KeyboardInterrupt], [SystemExit],
    [GeneratorExit]), which [except Exception] does not catch. *)
Inductive PyExn : Type :=
  | PyException (e : Exn)
  | PyUnprintable (raised : PyExn)
  | PyBaseException (name : string).

(** [isinstance(e, Exception)] *)
Definition is_Exception (e : PyExn) : bool :=
  match e with
  | PyBaseException _ => false
  | _ => true
  end.

Inductive PyOutcome (A : Type) : Type :=
  | PyRet (a : A)
  | PyRaise (e : PyExn)
  | PyOutOfFuel.
Arguments PyRet {A} a.
Arguments PyRaise {A} e.
Arguments PyOutOfFuel {A}.

Inductive PyReply (A : Type) : Type :=
  | PyReturns (a : A)
  | PyRaises (e : PyExn).
Arguments PyReturns {A} a.
Arguments PyRaises {A} e.

(** The calls made on [self.ctx] and [self.s3_client], answering with any
    Python exception. *)
Record PyClients : Type := mkPy {
  py_get_folder : string → PyReply Folder;
  py_open_binary : string → PyReply bytes;
  py_put_object : string → string → bytes → PyReply unit
}.

Definition PyM (A : Type) : Type := Locals → list Event * Locals * PyOutcome A.

#[global] Instance PyM_ret : MRet PyM := λ A a l, ([], l, PyRet a).

#[global] Instance PyM_bind : MBind PyM := λ A B f m l,
  match m l with
  | (t1, l1, PyRet a) =>
      match f a l1 with (t2, l2, o) => (t1 ++ t2, l2, o) end
  | (t1, l1, PyRaise e) => (t1, l1, PyRaise e)
  | (t1, l1, PyOutOfFuel) => (t1, l1, PyOutOfFuel)
  end.

(** A run that meets only the exceptions of [Exn], seen among all Python
    exceptions. *)
Definition up3 {A} (r : list Event * Locals * Outcome A) : list Event * Locals * PyOutcome A :=
  match r with
  | (t, l, Ret a) => (t, l, PyRet a)
  | (t, l, Raise e) => (t, l, PyRaise (PyException e))
  | (t, l, OutOfFuel) => (t, l, PyOutOfFuel)
  end.

Definition up {A} (r : list Event * Outcome A) : list Event * PyOutcome A :=
  match r with
  | (t, Ret a) => (t, PyRet a)
  | (t, Raise e) => (t, PyRaise (PyException e))
  | (t, OutOfFuel) => (t, PyOutOfFuel)
  end.

Definition lift {A} (m : M A) : PyM A := λ l, up3 (m l).

(** [try: body except Exception as e: handler e]: only instances of
    [Exception] are caught. *)
Definition py_try_except {A} (body : PyM A) (handler : PyExn → PyM A) : PyM A := λ l,
  match body l with
  | (t1, l1, PyRaise e) =>
      if is_Exception e
      then match handler e l1 with (t2, l2, o) => (t1 ++ t2, l2, o) end
      else (t1, l1, PyRaise e)
  | r => r
  end.

(** [str(e)] as a call, which may raise. *)
Definition py_str (e : PyExn) : PyM string := λ l,
  ([], l, match e with
          | PyException e => PyRet (str_exn e)
          | PyUnprintable raised => PyRaise raised
          | PyBaseException name => PyRet name
          end).

Definition py_of_reply {A} (r : PyReply A) : PyM A := λ l,
  ([], l, match r with PyReturns a => PyRet a | PyRaises e => PyRaise e end).

Definition py_call {A} (r : list Event * PyOutcome A) : PyM A := λ l, (r.1, l, r.2).

Fixpoint py_for_each {A} (xs : list A) (body : A → PyM unit) : PyM unit :=
  match xs with
  | [] => mret ()
  | x :: xs' => body x ;; py_for_each xs' body
  end.

Section PyWalk.

Variable urlparse_path : string → string.
Variable self : SharePointToS3.
Variable py : PyClients.

(** Lines 123-140. *)
Definition py_copy_one (file_obj : SPObject) : PyM unit :=
  py_try_except
    (url ← lift (getitem (properties file_obj) "ServerRelativeUrl");
     let relative_path := _get_relative_path urlparse_path self url in
     let s3_key := s3_prefix self +:+ relative_path in
     url' ← lift (getitem (properties file_obj) "ServerRelativeUrl");
     file_content ← (lift (emit (EvOpenBinary url')) ;; py_of_reply (py_open_binary py url'));
     lift (logger_info ("Copying file: " +:+ relative_path +:+ " -> s3://"
                        +:+ s3_bucket self +:+ "/" +:+ s3_key)) ;;
     (lift (emit (EvPutObject (s3_bucket self) s3_key file_content)) ;;
      py_of_reply (py_put_object py (s3_bucket self) s3_key file_content)) ;;
     lift (add_success 1))
    (λ e,
     url ← lift (getitem (properties file_obj) "ServerRelativeUrl");
     text ← py_str e;
     lift (logger_error ("Error copying file " +:+ url +:+ ": " +:+ text)) ;;
     lift (add_error 1)).

(** Lines 144-148. *)
Definition py_visit_subfolder (recurse : string → list Event * PyOutcome TransferResult)
    (subfolder : SPObject) : PyM unit :=
  name ← lift (getitem (properties subfolder) "Name");
  if bool_decide (name ∉ special_folders) then
    subfolder_url ← lift (getitem (properties subfolder) "ServerRelativeUrl");
    '(sub_success, sub_error) ← py_call (recurse subfolder_url);
    lift (add_success sub_success) ;;
    lift (add_error sub_error)
  else mret ().

(** Lines 113-154. *)
Fixpoint py_copy_folder (fuel : nat) (folder_url : string)
    : list Event * PyOutcome TransferResult :=
  match fuel with
  | O => ([], PyOutOfFuel)
  | S fuel' =>
      let body : PyM TransferResult :=
        py_try_except
          (folder ← (lift (emit (EvGetFolder folder_url)) ;;
                     py_of_reply (py_get_folder py folder_url));
           py_for_each (files folder) py_copy_one ;;
           py_for_each (folders folder) (py_visit_subfolder (py_copy_folder fuel')) ;;
           l ← lift read_locals;
           mret (success_count l, error_count l))
          (λ e,
           text ← py_str e;
           lift (logger_error ("Error processing folder " +:+ folder_url +:+ ": " +:+ text)) ;;
           l ← lift read_locals;
           mret (success_count l, error_count l + 1)) in
      match body {| success_count := 0; error_count := 0 |} with
      | (t, _, o) => (t, o)
      end
  end.

(** The folder tree below [folder_url], as the client answers, has fewer
    than [d] levels below the folders that are descended into. *)
Fixpoint py_tree_height_lt (d : nat) (folder_url : string) : bool :=
  match d with
  | O => false
  | S d' =>
      match py_get_folder py folder_url with
      | PyRaises _ => true
      | PyReturns folder =>
          forallb (λ subfolder,
                     match properties subfolder !! "Name",
                           properties subfolder !! "ServerRelativeUrl" with
                     | Some name, Some u =>
                         bool_decide (name ∈ special_folders) || py_tree_height_lt d' u
                     | _, _ => true
                     end) (folders folder)
      end
  end.

(** The answer raises nothing but an instance of [Exception] whose [str]
    returns. *)
Definition plain {A} (r : PyReply A) : bool :=
  match r with
  | PyReturns _ | PyRaises (PyException _) => true
  | PyRaises _ => false
  end.

Definition plain_clients : Prop :=
  (∀ u, plain (py_get_folder py u) = true)
  ∧ (∀ u, plain (py_open_binary py u) = true)
  ∧ (∀ b k c, plain (py_put_object py b k c) = true).

(** The clients seen through [Reply]: what is not an exception of [Exn]
    has no counterpart and is mapped to an arbitrary one. *)
Definition lower_reply {A} (r : PyReply A) : Reply A :=
  match r with
  | PyReturns a => Returns a
  | PyRaises (PyException e) => Raises e
  | PyRaises _ => Raises (ClientError "")
  end.

Definition lower : SharePointToS3 :=
  {| sharepoint_url := sharepoint_url self; username := username self;
     password := password self; s3_bucket := s3_bucket self; s3_prefix := s3_prefix self;
     ctx := mkCtx (λ u, lower_reply (py_get_folder py u))
                  (λ u, lower_reply (py_open_binary py u));
     s3_client := mkS3 (λ b k c, lower_reply (py_put_object py b k c)) |}.

End PyWalk.

(** Unfolds the sequencing and the primitive statements of a run. *)
Ltac run := unfold mbind, M_bind, mret, M_ret, raise, emit, of_reply,
  logger_info, logger_error, add_success, add_error, read_locals, call; cbn.

(** ** The repository's tests, replayed on the model *)

Definition test_urlparse_path (url : string) : string := "/sites/test".

Definition obj (url name : string) : SPObject :=
  mkObj (<["ServerRelativeUrl" := url]> (<["Name" := name]> ∅)).

Definition test_content : bytes := [x74; x65; x73; x74]%byte.

Definition test_file1 : SPObject := obj "/sites/test/Shared Documents/file1.txt" "file1.txt".
Definition test_file2 : SPObject := obj "/sites/test/Shared Documents/file2.txt" "file2.txt".
Definition test_subfolder : SPObject := obj "/sites/test/Shared Documents/subfolder" "subfolder".

Definition always_put : S3Client := mkS3 (λ _ _ _, Returns ()).

(** [test_copy_folder]: two files, one empty subfolder, every call succeeds. *)
Definition test_ctx : ClientContext :=
  mkCtx (λ url, if decide (url = "/sites/test/Shared Documents")
                then Returns (mkFolder [test_file1; test_file2] [test_subfolder])
                else Returns (mkFolder [] []))
        (λ _, Returns test_content).

Definition test_self : SharePointToS3 :=
  __init__ "https://test.sharepoint.com/sites/test" "test@example.com" "password"
           "test-bucket" "test-prefix" test_ctx always_put.

(** [test_copy_folder_with_error]: the fetch of the second file raises. *)
Definition test_ctx_error : ClientContext :=
  mkCtx (λ _, Returns (mkFolder [test_file1; test_file2] []))
        (λ url, if decide (url = "/sites/test/Shared Documents/file2.txt")
                then Raises (ClientError "Test error")
                else Returns test_content).

Definition test_self_error : SharePointToS3 :=
  __init__ "https://test.sharepoint.com/sites/test" "test@example.com" "password"
           "test-bucket" "test-prefix" test_ctx_error always_put.

(** A folder that the client refuses to list. *)
Definition test_ctx_denied : ClientContext :=
  mkCtx (λ _, Raises (ClientError "Access denied")) (λ _, Returns test_content).

Definition test_self_denied : SharePointToS3 :=
  __init__ "https://test.sharepoint.com/sites/test" "test@example.com" "password"
           "test-bucket" "test-prefix" test_ctx_denied always_put.

(** A library root with one file, the hidden "Forms" folder (which holds a
    file) and one ordinary subfolder holding one file. *)
Definition test_forms : SPObject := obj "/sites/test/Shared Documents/Forms" "Forms".
Definition test_file3 : SPObject := obj "/sites/test/Shared Documents/subfolder/file3.txt" "file3.txt".
Definition test_template : SPObject := obj "/sites/test/Shared Documents/Forms/template.dotx" "template.dotx".

Definition test_ctx_forms : ClientContext :=
  mkCtx (λ url, if decide (url = "/sites/test/Shared Documents")
                then Returns (mkFolder [test_file1] [test_forms; test_subfolder])
                else if decide (url = "/sites/test/Shared Documents/Forms")
                then Returns (mkFolder [test_template] [])
                else Returns (mkFolder [test_file3] []))
        (λ _, Returns test_content).

Definition test_self_forms : SharePointToS3 :=
  __init__ "https://test.sharepoint.com/sites/test" "test@example.com" "password"
           "test-bucket" "test-prefix" test_ctx_forms always_put.

(** Objects whose [properties] lack an entry. *)
Definition test_no_path : SPObject := mkObj (<["Name" := "ghost.txt"]> ∅).
Definition test_no_name : SPObject :=
  mkObj (<["ServerRelativeUrl" := "/sites/test/Shared Documents/nameless"]> ∅).

Definition test_ctx_no_path : ClientContext :=
  mkCtx (λ _, Returns (mkFolder [test_file1; test_no_path; test_file2] [test_subfolder]))
        (λ _, Returns test_content).

Definition test_self_no_path : SharePointToS3 :=
  __init__ "https://test.sharepoint.com/sites/test" "test@example.com" "password"
           "test-bucket" "test-prefix" test_ctx_no_path always_put.

Definition test_ctx_no_name : ClientContext :=
  mkCtx (λ url, if decide (url = "/sites/test/Shared Documents")
                then Returns (mkFolder [test_file1]
                                [test_forms; test_subfolder; test_no_name; test_subfolder])
                else Returns (mkFolder [test_file3] []))
        (λ _, Returns test_content).

Definition test_self_no_name : SharePointToS3 :=
  __init__ "https://test.sharepoint.com/sites/test" "test@example.com" "password"
           "test-bucket" "test-prefix" test_ctx_no_name always_put.

(** The SDK calls of the constructor: all succeeding, and with a bucket
    that does not exist. *)
Definition test_sdk : Sdk :=
  mkSdk (λ _ _ _, SetupReturns (test_ctx, <["Title" := "Test Site"]> ∅))
        (λ _, SetupReturns always_put)
        (λ _ _, SetupReturns ()).

Definition test_sdk_404 : Sdk :=
  mkSdk (λ _ _ _, SetupReturns (test_ctx, <["Title" := "Test Site"]> ∅))
        (λ _, SetupReturns always_put)
        (λ _ _, SetupRaises (BotoClientError (Some "404") "Not Found")).

Definition test_args : Args :=
  mkArgs "https://test.sharepoint.com/sites/test" "test@example.com" "password"
         "Shared Documents" "test-bucket" "test-prefix" None false.

(** A client that answers for the library root, its subfolder and their
    three files, and raises at every other path. *)
Definition test_ctx_tree_only : ClientContext :=
  mkCtx (λ url, if decide (url = "/sites/test/Shared Documents")
                then Returns (mkFolder [test_file1; test_file2] [test_forms; test_subfolder])
                else if decide (url = "/sites/test/Shared Documents/subfolder")
                then Returns (mkFolder [test_file3] [])
                else Raises (ClientError "Not found"))
        (λ url, if decide (url = "/sites/test/Shared Documents/file1.txt") then Returns test_content
                else if decide (url = "/sites/test/Shared Documents/file2.txt") then Returns test_content
                else if decide (url = "/sites/test/Shared Documents/subfolder/file3.txt")
                then Returns test_content
                else Raises (ClientError "Not found")).

Definition test_self_tree_only : SharePointToS3 :=
  __init__ "https://test.sharepoint.com/sites/test" "test@example.com" "password"
           "test-bucket" "test-prefix" test_ctx_tree_only always_put.

Definition test_sdk_tree_only : Sdk :=
  mkSdk (λ _ _ _, SetupReturns (test_ctx_tree_only, <["Title" := "Test Site"]> ∅))
        (λ _, SetupReturns always_put)
        (λ _ _, SetupReturns ()).

(** Clients for the walk under any Python exception: one interrupted while
    it lists, one whose listing error cannot be printed, one interrupted
    while it fetches the second file, and one that raises ordinary
    exceptions at a subfolder and at a file and lists a nameless
    subfolder. *)
Definition test_py_interrupt : PyClients :=
  mkPy (λ _, PyRaises (PyBaseException "KeyboardInterrupt"))
       (λ _, PyReturns test_content) (λ _ _ _, PyReturns ()).

Definition test_py_unprintable : PyClients :=
  mkPy (λ _, PyRaises (PyUnprintable (PyException (ClientError "__str__ failed"))))
       (λ _, PyReturns test_content) (λ _ _ _, PyReturns ()).

Definition test_py_interrupt_fetch : PyClients :=
  mkPy (λ _, PyReturns (mkFolder [test_file1; test_file2] []))
       (λ url, if decide (url = "/sites/test/Shared Documents/file2.txt")
               then PyRaises (PyBaseException "KeyboardInterrupt")
               else PyReturns test_content)
       (λ _ _ _, PyReturns ()).

Definition test_py_faulty : PyClients :=
  mkPy (λ url, if decide (url = "/sites/test/Shared Documents")
               then PyReturns (mkFolder [test_file1; test_file2]
                                 [test_forms; test_subfolder; test_no_name; test_subfolder])
               else PyRaises (PyException (ClientError "Access denied")))
       (λ url, if decide (url = "/sites/test/Shared Documents/file2.txt")
               then PyRaises (PyException (ClientError "Test error"))
               else PyReturns test_content)
       (λ _ _ _, PyReturns ()).

Example test_get_relative_path :
  _get_relative_path test_urlparse_path test_self "/sites/test/Shared Documents/folder/file.txt"
    = "Shared Documents/folder/file.txt"
  ∧ _get_relative_path test_urlparse_path test_self "Shared Documents/folder/file.txt"
    = "Shared Documents/folder/file.txt"
  ∧ _get_relative_path test_urlparse_path test_self "/Shared Documents/folder/file.txt"
    = "Shared Documents/folder/file.txt".
Proof. repeat split; reflexivity. Qed.

Example test_copy_folder_with_error :
  let r := copy_folder test_urlparse_path 1 test_self_error "/sites/test/Shared Documents" in
  r.2 = Ret (1, 1)
  ∧ put_attempts r.1 =
      [("test-bucket", "test-prefix/Shared Documents/file1.txt", test_content)].
Proof. vm_compute. split; reflexivity. Qed.

Example test_start_transfer :
  let r := start_transfer test_urlparse_path 2 test_self "Shared Documents" in
  folder_requests r.1
  = ["/sites/test/Shared Documents"; "/sites/test/Shared Documents/subfolder"]
  ∧ r.2 = (copy_folder test_urlparse_path 2 test_self "/sites/test/Shared Documents").2.
Proof. vm_compute. split; reflexivity. Qed.

Example test_copy_folder :
  let r := copy_folder test_urlparse_path 2 test_self "/sites/test/Shared Documents" in
  r.2 = Ret (2, 0)
  ∧ put_attempts r.1 =
      [("test-bucket", "test-prefix/Shared Documents/file1.txt", test_content);
       ("test-bucket", "test-prefix/Shared Documents/file2.txt", test_content)]
  ∧ EvGetFolder "/sites/test/Shared Documents/subfolder" ∈ r.1.
Proof.
  vm_compute. split; [reflexivity|]. split; [reflexivity|].
  repeat constructor.
Qed.

(** ** Facts about the string primitives *)

Lemma app_String (a : ascii) (s t : string) : String a s +:+ t = String a (s +:+ t).
Proof. reflexivity. Qed.

Lemma app_empty_l (s : string) : "" +:+ s = s.
Proof. reflexivity. Qed.

Lemma app_empty_r (s : string) : s +:+ "" = s.
Proof. induction s as [|a s IH]; [done|]. by rewrite app_String, IH. Qed.

Lemma app_assoc_str (s t u : string) : (s +:+ t) +:+ u = s +:+ t +:+ u.
Proof. induction s as [|a s IH]; [done|]. by rewrite !app_String, IH. Qed.

Lemma app_inj_l (s a b : string) : s +:+ a = s +:+ b → a = b.
Proof.
  induction s as [|c s IH]; [done|].
  rewrite !app_String. intros [= H]. auto.
Qed.

Lemma in_chars_slash (c : ascii) : in_chars c "/" = bool_decide (c = "/"%char).
Proof. cbn. destruct (decide (c = "/"%char)) as [->|Hne]; [done|]. by rewrite bool_decide_eq_false_2. Qed.

Lemma startswith_app (p q : string) : startswith (p +:+ q) p = true.
Proof.
  induction p as [|a p IH]; [done|].
  rewrite app_String. cbn. by rewrite decide_True.
Qed.

Lemma startswith_true (s p : string) :
  startswith s p = true → s = p +:+ slice_from (String.length p) s.
Proof.
  revert s. induction p as [|a p IH]; intros s H; [done|].
  destruct s as [|b s]; [done|]. cbn in H.
  destruct (decide (a = b)) as [->|]; [|done].
  rewrite app_String. cbn. f_equal. by apply IH.
Qed.

Lemma startswith_iff (s p : string) :
  startswith s p = true ↔ ∃ q, s = p +:+ q.
Proof.
  split.
  - intros H. eexists. by apply startswith_true.
  - intros [q ->]. apply startswith_app.
Qed.

Lemma slice_from_app (p q : string) : slice_from (String.length p) (p +:+ q) = q.
Proof. induction p as [|a p IH]; [done|]. by rewrite app_String. Qed.

(** [lstrip] removes a run of separators and nothing else, and what is left
    does not begin with one. *)
Lemma lstrip_slash_spec (s : string) :
  (∃ k, s = seps k +:+ lstrip s "/") ∧ startswith (lstrip s "/") "/" = false.
Proof.
  induction s as [|c s [[k IHk] IHs]].
  - split; [by exists O|done].
  - cbn [lstrip]. rewrite in_chars_slash.
    destruct (decide (c = "/"%char)) as [->|Hne].
    + rewrite bool_decide_eq_true_2 by done. split; [|done].
      exists (S k). cbn [seps]. by rewrite app_String, <- IHk.
    + rewrite bool_decide_eq_false_2 by done. split; [by exists O|].
      cbn. rewrite decide_False; [done|]. by intros <-.
Qed.

(** The run removed by [lstrip] is the longest one: any other split of [s]
    into separators and a rest not starting with one is the same split. *)
Lemma lstrip_slash_unique (k : nat) (r : string) :
  startswith r "/" = false → lstrip (seps k +:+ r) "/" = r.
Proof.
  intros Hr. induction k as [|k IH].
  - rewrite app_empty_l. destruct r as [|c r]; [done|].
    cbn [lstrip]. rewrite in_chars_slash. cbn in Hr.
    destruct (decide ("/"%char = c)) as [<-|Hne]; [done|].
    rewrite bool_decide_eq_false_2; [done|]. by intros ->.
  - cbn [seps]. rewrite app_String. cbn [lstrip]. by rewrite in_chars_slash.
Qed.

Lemma endswith_char_snoc (s : string) (c d : ascii) :
  endswith_char (s +:+ String c "") d = bool_decide (c = d).
Proof.
  induction s as [|a s IH]; [done|].
  rewrite app_String. cbn [endswith_char]. rewrite IH.
  destruct s; done.
Qed.

(** [rstrip] removes a trailing run of separators and nothing else, and
    what is left does not end with one. *)
Lemma rstrip_slash_spec (s : string) :
  (∃ k, s = rstrip s "/" +:+ seps k) ∧ endswith_char (rstrip s "/") "/" = false.
Proof.
  induction s as [|c s [[k IHk] IHs]].
  - split; [by exists O|done].
  - cbn [rstrip]. destruct (rstrip s "/") as [|b r] eqn:Hr.
    + rewrite in_chars_slash.
      destruct (decide (c = "/"%char)) as [->|Hne].
      * rewrite bool_decide_eq_true_2 by done. split; [|done].
        exists (S k). rewrite app_empty_l in *. cbn [seps]. by rewrite <- IHk.
      * rewrite bool_decide_eq_false_2 by done. split.
        -- exists k. rewrite app_String. by rewrite <- IHk.
        -- cbn. by rewrite bool_decide_eq_false_2.
    + split; [|done].
      exists k. rewrite app_String. by rewrite <- IHk.
Qed.

(** ** Path mapper: the relative path and the destination key *)

Section PathMapperFacts.

Variable urlparse_path : string → string.

(** What [relative_path] returns never begins with a separator. *)
Lemma relative_path_no_leading_sep (R P : string) :
  startswith (relative_path R P) "/" = false.
Proof. unfold relative_path. destruct (startswith P R); apply lstrip_slash_spec. Qed.

(** C4. For a root prefix [R] (the path of the site URL) and a candidate
    path [P]: if [P] starts with [R], the result is [P] without [R] and
    without the run of separators that follows [R], and nothing more is
    dropped; if [P] does not start with [R], the result is [P] without its
    leading run of separators.  The result never begins with a separator, so
    the whole run is dropped.  The function is total: it returns a string
    for every input. *)
Theorem get_relative_path_spec (self : SharePointToS3) (P : string) :
  let R := urlparse_path (sharepoint_url self) in
  let r := _get_relative_path urlparse_path self P in
  startswith r "/" = false
  ∧ ((∃ Q, P = R +:+ Q) → ∃ k, P = R +:+ seps k +:+ r)
  ∧ (¬ (∃ Q, P = R +:+ Q) → ∃ k, P = seps k +:+ r).
Proof.
  intros R r. subst r. unfold _get_relative_path. fold R.
  split; [apply relative_path_no_leading_sep|].
  unfold relative_path. split; intros H.
  - apply startswith_iff in H. rewrite H.
    destruct (lstrip_slash_spec (slice_from (String.length R) P)) as [[k Hk] _].
    exists k. rewrite <- Hk. by apply startswith_true.
  - destruct (startswith P R) eqn:Hsw; [by apply startswith_iff in Hsw|].
    destruct (lstrip_slash_spec P) as [[k Hk] _]. by exists k.
Qed.

(** The normalized prefix is empty exactly when the configured prefix is,
    and otherwise is the configured prefix with its trailing separators
    replaced by a single one. *)
Lemma normalize_prefix_spec (prefix : string) :
  (prefix = "" ∧ normalize_prefix prefix = "")
  ∨ (prefix ≠ "" ∧ ∃ base k, prefix = base +:+ seps k
       ∧ endswith_char base "/" = false
       ∧ normalize_prefix prefix = base +:+ "/").
Proof.
  unfold normalize_prefix. destruct (decide (prefix = "")) as [->|Hne]; [by left|].
  right. split; [done|].
  destruct (rstrip_slash_spec prefix) as [[k Hk] He].
  by exists (rstrip prefix "/"), k.
Qed.

(** C5. For every configured prefix and every file path, the destination
    key is the normalized prefix followed by the relative path; the
    normalized prefix is empty (when the configured prefix is empty) or ends
    in exactly one separator, and the relative path never begins with a
    separator: at the junction no separator is doubled and none is missing. *)
Theorem destination_key_junction (url user pw bucket prefix : string)
    (c : ClientContext) (s3 : S3Client) (path : string) :
  let self := __init__ url user pw bucket prefix c s3 in
  let rel := _get_relative_path urlparse_path self path in
  s3_key_of urlparse_path self path = s3_prefix self +:+ rel
  ∧ ((prefix = "" ∧ s3_prefix self = "")
     ∨ (prefix ≠ "" ∧ ∃ base k, prefix = base +:+ seps k
          ∧ endswith_char base "/" = false
          ∧ s3_prefix self = base +:+ "/"
          ∧ endswith_char (s3_prefix self) "/" = true))
  ∧ startswith rel "/" = false.
Proof.
  intros self rel. split; [done|]. split.
  - cbn [self __init__ s3_prefix].
    destruct (normalize_prefix_spec prefix) as [?|[Hne (base & k & Hp & Hb & Hn)]]; [by left|].
    right. split; [done|]. exists base, k. repeat split; try done.
    rewrite Hn. by rewrite endswith_char_snoc.
  - apply relative_path_no_leading_sep.
Qed.

(** For server-relative URLs of files below the site root, written
    [site ++ "/" ++ rest] with [rest] not starting with a separator, the
    relative path is [rest]. *)
Lemma s3_key_of_rooted (self : SharePointToS3) (rest : string) :
  startswith rest "/" = false →
  s3_key_of urlparse_path self (urlparse_path (sharepoint_url self) +:+ "/" +:+ rest)
  = s3_prefix self +:+ rest.
Proof.
  intros Hr. unfold s3_key_of, _get_relative_path, relative_path.
  rewrite startswith_app, slice_from_app.
  f_equal. exact (lstrip_slash_unique 1 rest Hr).
Qed.

(** C1. Two files whose relative paths differ get different destination
    keys: the key determines the relative path.  In particular two distinct
    files below the site root, at [site ++ "/" ++ rest] with [rest] not
    starting with a separator, get different keys. *)
Theorem s3_key_of_injective (self : SharePointToS3) :
  (∀ p1 p2,
     _get_relative_path urlparse_path self p1 ≠ _get_relative_path urlparse_path self p2 →
     s3_key_of urlparse_path self p1 ≠ s3_key_of urlparse_path self p2)
  ∧ (∀ rest1 rest2,
       startswith rest1 "/" = false → startswith rest2 "/" = false →
       rest1 ≠ rest2 →
       s3_key_of urlparse_path self (urlparse_path (sharepoint_url self) +:+ "/" +:+ rest1)
       ≠ s3_key_of urlparse_path self (urlparse_path (sharepoint_url self) +:+ "/" +:+ rest2)).
Proof.
  split.
  - intros p1 p2 Hne Heq. apply Hne. unfold s3_key_of in Heq. by apply app_inj_l in Heq.
  - intros rest1 rest2 H1 H2 Hne. rewrite !s3_key_of_rooted by done.
    intros Heq. by apply app_inj_l in Heq.
Qed.

End PathMapperFacts.

(** ** Result aggregation *)

(** C7. [merge] is componentwise integer addition; it is associative and
    commutative and [(0, 0)] is its identity.  The two [+=] statements of
    the walk (lines 147-148) add a subtree's counts to the frame's counts
    by [merge]. *)
Theorem merge_spec :
  (∀ s1 e1 s2 e2 : Z, merge (s1, e1) (s2, e2) = (s1 + s2, e1 + e2))
  ∧ (∀ a b c, merge (merge a b) c = merge a (merge b c))
  ∧ (∀ a b, merge a b = merge b a)
  ∧ (∀ x, merge (0, 0) x = x)
  ∧ (∀ l s e,
       (add_success s ;; add_error e) l
       = ([], {| success_count := (merge (success_count l, error_count l) (s, e)).1;
                 error_count := (merge (success_count l, error_count l) (s, e)).2 |},
          Ret ())).
Proof.
  repeat split.
  - intros [] [] []. unfold merge. cbn. f_equal; lia.
  - intros [] []. unfold merge. cbn. f_equal; lia.
  - intros []. unfold merge. cbn. f_equal; lia.
Qed.

(** ** The per-file copy step *)

Section Walk.

Variable urlparse_path : string → string.
Variable self : SharePointToS3.

Local Abbreviation copy_one' := (copy_one urlparse_path self).
Local Abbreviation copy_folder' n := (copy_folder urlparse_path n self).
Local Abbreviation key_of := (s3_key_of urlparse_path self).
Local Abbreviation put_of := (put_of_file urlparse_path self).
Local Abbreviation failure_of := (file_failure urlparse_path self).
Local Abbreviation copies := (file_copies urlparse_path self).
Local Abbreviation result_of := (files_result urlparse_path self).

(** The exact run of [copy_one] on a file object that has its path: what it
    emits and how the frame's counters change, by the answers of the two
    clients. *)
Lemma copy_one_run (file_obj : SPObject) (u : string) (l : Locals) :
  properties file_obj !! "ServerRelativeUrl" = Some u →
  copy_one' file_obj l =
    let rel := _get_relative_path urlparse_path self u in
    let info := EvLogInfo ("Copying file: " +:+ rel +:+ " -> s3://"
                           +:+ s3_bucket self +:+ "/" +:+ key_of u) in
    let err e := EvLogError ("Error copying file " +:+ u +:+ ": " +:+ str_exn e) in
    match open_binary (ctx self) u with
    | Raises e => ([EvOpenBinary u; err e], bump l (0, 1), Ret ())
    | Returns content =>
        let put := EvPutObject (s3_bucket self) (key_of u) content in
        match put_object (s3_client self) (s3_bucket self) (key_of u) content with
        | Raises e => ([EvOpenBinary u; info; put; err e], bump l (0, 1), Ret ())
        | Returns _ => ([EvOpenBinary u; info; put], bump l (1, 0), Ret ())
        end
    end.
Proof.
  intros Hu. unfold copy_one, try_except, call_open_binary, call_put_object, getitem.
  rewrite Hu. run. unfold s3_key_of.
  destruct (open_binary (ctx self) u) as [content|e]; cbn.
  - destruct (put_object _ _ _ content) as [[]|e]; cbn; unfold bump; cbn;
      repeat f_equal; lia.
  - unfold bump; cbn. repeat f_equal; lia.
Qed.

(** On a file object without its path the step does not end normally: the
    [KeyError] of line 124 is caught, and line 139 raises it again from
    inside the handler. *)
Lemma copy_one_no_path (file_obj : SPObject) (l : Locals) :
  properties file_obj !! "ServerRelativeUrl" = None →
  copy_one' file_obj l = ([], l, Raise (KeyError "ServerRelativeUrl")).
Proof.
  intros Hu. unfold copy_one, try_except, getitem. rewrite Hu. by run.
Qed.

(** *** Sequencing *)

Lemma bind_Ret {A B} (m : M A) (f : A → M B) l t l1 a :
  m l = (t, l1, Ret a) →
  (m ≫= f) l = (t ++ (f a l1).1.1, (f a l1).1.2, (f a l1).2).
Proof. intros H. unfold mbind, M_bind. rewrite H. by destruct (f a l1) as [[??]?]. Qed.

Lemma bind_Raise {A B} (m : M A) (f : A → M B) l t l1 e :
  m l = (t, l1, Raise e) → (m ≫= f) l = (t, l1, Raise e).
Proof. intros H. unfold mbind, M_bind. by rewrite H. Qed.

Lemma bind_OutOfFuel {A B} (m : M A) (f : A → M B) l t l1 :
  m l = (t, l1, OutOfFuel) → (m ≫= f) l = (t, l1, OutOfFuel).
Proof. intros H. unfold mbind, M_bind. by rewrite H. Qed.

Lemma for_each_cons_Ret {A} (body : A → M unit) x xs l t l1 :
  body x l = (t, l1, Ret ()) →
  for_each (x :: xs) body l
  = (t ++ (for_each xs body l1).1.1, (for_each xs body l1).1.2, (for_each xs body l1).2).
Proof. intros H. cbn [for_each]. by rewrite (bind_Ret _ _ _ _ _ _ H). Qed.

(** A loop runs its items in order; when the items of [xs] all end
    normally, the loop over [xs ++ ys] continues with [ys] from the frame
    that [xs] left. *)
Lemma for_each_app_Ret {A} (body : A → M unit) xs ys l t l1 :
  for_each xs body l = (t, l1, Ret ()) →
  for_each (xs ++ ys) body l
  = (t ++ (for_each ys body l1).1.1, (for_each ys body l1).1.2, (for_each ys body l1).2).
Proof.
  revert l t l1. induction xs as [|x xs IH]; intros l t l1 H.
  - cbn in H. injection H as <- <-. cbn. by destruct (for_each ys body l) as [[??]?].
  - cbn [for_each app] in *. unfold mbind, M_bind in *.
    destruct (body x l) as [[t0 l0] [[]|e|]]; try done.
    destruct (for_each xs body l0) as [[t2 l2] o2] eqn:Hxs.
    injection H as <- <- ->.
    rewrite (IH _ _ _ Hxs). cbn. by rewrite app_assoc.
Qed.

(** When an item raises, the loop stops there: the later items are not run. *)
Lemma for_each_cons_Raise {A} (body : A → M unit) x xs l t l1 e :
  body x l = (t, l1, Raise e) →
  for_each (x :: xs) body l = (t, l1, Raise e).
Proof. intros H. cbn [for_each]. by rewrite (bind_Raise _ _ _ _ _ _ H). Qed.

Lemma bump_bump l a b : bump (bump l a) b = bump l (merge a b).
Proof. unfold bump, merge. cbn. f_equal; lia. Qed.

Lemma bump_0 l : bump l (0, 0) = l.
Proof. destruct l. unfold bump. cbn. f_equal; lia. Qed.

Lemma counts_bump l r : counts (bump l r) = merge (counts l) r.
Proof. done. Qed.

(** *** The loop over the files *)

Lemma files_result_cons f fs :
  result_of (f :: fs) = merge (if copies f then (1, 0) else (0, 1)) (result_of fs).
Proof.
  unfold files_result, merge. destruct (copies f) eqn:Hf.
  - rewrite filter_cons_True, filter_cons_False by (by rewrite ?Hf). cbn [length fst snd].
    f_equal; lia.
  - rewrite filter_cons_False, filter_cons_True by (by rewrite ?Hf). cbn [length fst snd].
    f_equal; lia.
Qed.

Lemma files_result_total fs :
  (result_of fs).1 = Z.of_nat (length fs) - (result_of fs).2 ∧ 0 <= (result_of fs).1.
Proof.
  induction fs as [|f fs [IH1 IH2]]; [done|].
  rewrite files_result_cons, length_cons. unfold merge.
  destruct (copies f); cbn [fst snd] in *; lia.
Qed.

(** One step on a file with its path, by observation. *)
Lemma copy_one_step (file_obj : SPObject) (u : string) (l : Locals) :
  properties file_obj !! "ServerRelativeUrl" = Some u →
  ∃ t, copy_one' file_obj l
       = (t, bump l (if copies file_obj then (1, 0) else (0, 1)), Ret ())
    ∧ put_attempts t = option_list (put_of file_obj)
    ∧ fetch_attempts t = [u]
    ∧ folder_requests t = [].
Proof.
  intros Hu. rewrite (copy_one_run _ _ _ Hu).
  unfold file_copies, file_failure, put_of_file. rewrite Hu. cbn zeta.
  destruct (open_binary (ctx self) u) as [content|e]; [|by eexists].
  destruct (put_object _ _ _ content) as [[]|e]; by eexists.
Qed.

(** The loop over files that all have their path ends normally; every file
    is fetched, in order, whether or not earlier ones failed; the writes
    attempted are those of the files whose fetch succeeded; the counters
    grow by the number of files copied and the number of files failed. *)
Lemma for_each_files (fs : list SPObject) (l : Locals) :
  Forall has_path fs →
  ∃ t, for_each fs copy_one' l = (t, bump l (result_of fs), Ret ())
    ∧ put_attempts t = omap put_of fs
    ∧ fetch_attempts t = omap (λ f, properties f !! "ServerRelativeUrl") fs
    ∧ folder_requests t = [].
Proof.
  intros Hfs. revert l. induction Hfs as [|f fs [u Hu] _ IH]; intros l.
  - exists []. by rewrite bump_0.
  - destruct (copy_one_step f u l Hu) as (t1 & H1 & Hp1 & Hf1 & Hg1).
    destruct (IH (bump l (if copies f then (1, 0) else (0, 1)))) as (t2 & H2 & Hp2 & Hf2 & Hg2).
    exists (t1 ++ t2). rewrite (for_each_cons_Ret _ _ _ _ _ _ H1), H2. cbn [fst snd].
    rewrite bump_bump, <- files_result_cons.
    unfold put_attempts, fetch_attempts, folder_requests in *.
    rewrite !omap_app, Hp1, Hp2, Hf1, Hf2, Hg1, Hg2. cbn [omap list_omap]. cbv beta.
    rewrite Hu. repeat split; try done.
    by destruct (put_of f).
Qed.

(** ** The folder walk *)

(** [copy_folder] with fuel left, on a folder that the client lists: the
    two loops run in a fresh frame; if they end normally the frame's counts
    are returned, and if an exception escapes them the [except] clause of
    line 152 logs it and returns the counts reached, with one more error. *)
Lemma copy_folder_listed (n : nat) (folder_url : string) (folder : Folder) :
  get_folder (ctx self) folder_url = Returns folder →
  copy_folder' (S n) folder_url =
    match (for_each (files folder) copy_one' ;;
           for_each (folders folder) (visit_subfolder (copy_folder' n))) frame0 with
    | (t, l, Ret _) => (EvGetFolder folder_url :: t, Ret (counts l))
    | (t, l, Raise e) =>
        (EvGetFolder folder_url :: t
           ++ [EvLogError ("Error processing folder " +:+ folder_url +:+ ": " +:+ str_exn e)],
         Ret (success_count l, error_count l + 1))
    | (t, l, OutOfFuel) => (EvGetFolder folder_url :: t, OutOfFuel)
    end.
Proof.
  intros Hget. cbn [copy_folder]. unfold try_except, call_get_folder.
  run. rewrite Hget. fold frame0.
  destruct (for_each (files folder) copy_one' frame0) as [[t1 l1] [[]|e|]]; try done.
  destruct (for_each (folders folder) _ l1) as [[t2 l2] [[]|e|]]; try done.
  by rewrite app_nil_r.
Qed.

(** [copy_folder] with fuel left, on a folder that the client fails to
    resolve or list: the [except] clause of line 152 logs the exception and
    returns the counts of the fresh frame with one more error. *)
Lemma copy_folder_not_listed (n : nat) (folder_url : string) (e : Exn) :
  get_folder (ctx self) folder_url = Raises e →
  copy_folder' (S n) folder_url
  = ([EvGetFolder folder_url;
      EvLogError ("Error processing folder " +:+ folder_url +:+ ": " +:+ str_exn e)],
     Ret (0, 1)).
Proof.
  intros Hget. cbn [copy_folder]. unfold try_except, call_get_folder. run.
  by rewrite Hget.
Qed.

(** C2. When the SharePoint client fails to resolve or list the folder,
    [copy_folder] returns [(0, 1)]: the exception is logged and does not
    reach the caller; no file is fetched and no write is attempted, so the
    destination store is unchanged. *)
Theorem copy_folder_listing_fails (n : nat) (folder_url : string) (e : Exn) :
  get_folder (ctx self) folder_url = Raises e →
  ∃ t, copy_folder' (S n) folder_url = (t, Ret (0, 1))
    ∧ put_attempts t = []
    ∧ fetch_attempts t = []
    ∧ folder_requests t = [folder_url]
    ∧ error_records t
      = ["Error processing folder " +:+ folder_url +:+ ": " +:+ str_exn e]
    ∧ ∀ store, store_after (s3_client self) t store = store.
Proof.
  intros Hget. eexists. split; [by apply copy_folder_not_listed|done].
Qed.

(** C3. A folder listed with [N] files, each carrying its path, and no
    subfolder, of which [k] files fail at the fetch or at the write, gives
    [(N - k, k)].  Every file is fetched, in order, also after a failure,
    and a write is attempted for exactly the files whose fetch succeeded. *)
Theorem copy_folder_flat (n : nat) (folder_url : string) (folder : Folder) :
  get_folder (ctx self) folder_url = Returns folder →
  folders folder = [] →
  Forall has_path (files folder) →
  let N := Z.of_nat (length (files folder)) in
  let k := Z.of_nat (length (filter (λ f, copies f = false) (files folder))) in
  ∃ t, copy_folder' (S n) folder_url = (t, Ret (N - k, k))
    ∧ fetch_attempts t
      = omap (λ f, properties f !! "ServerRelativeUrl") (files folder)
    ∧ put_attempts t = omap put_of (files folder).
Proof.
  intros Hget Hsub Hfs N k.
  destruct (for_each_files (files folder) frame0 Hfs) as (t & Hrun & Hp & Hf & Hg).
  exists (EvGetFolder folder_url :: t).
  rewrite (copy_folder_listed _ _ _ Hget), Hsub.
  rewrite (bind_Ret _ _ _ _ _ _ Hrun). cbn [for_each]. run. rewrite app_nil_r.
  repeat split; try done.
  destruct (files_result_total (files folder)) as [Htot _].
  unfold counts, bump, frame0. cbn [success_count error_count].
  f_equal. rewrite !Z.add_0_l. by rewrite Htot.
Qed.

(** ** The per-file copy step, as the destination sees it *)

(** C8, as the code has it.  One run of the per-file step on a file object
    carrying its path ends normally and attempts at most one write: exactly
    one when the fetch returned, with the key of the file and the content
    fetched, and none when the fetch raised.  When neither the fetch nor the
    write raises, the success count grows by one, nothing is logged as an
    error, and the destination holds the fetched content under the key,
    whatever it held there before.  When either raises, the error count
    grows by one, one error record naming the file's path and the exception
    is logged, and the destination is unchanged. *)
Theorem copy_one_spec (file_obj : SPObject) (u : string) (l : Locals) :
  properties file_obj !! "ServerRelativeUrl" = Some u →
  ∃ t l', copy_one' file_obj l = (t, l', Ret ())
    ∧ put_attempts t = option_list (put_of file_obj)
    ∧ (length (put_attempts t) ≤ 1)%nat
    ∧ (length (put_attempts t) = 1%nat ↔ ∃ c, open_binary (ctx self) u = Returns c)
    ∧ match failure_of file_obj with
      | None =>
          counts l' = merge (counts l) (1, 0)
          ∧ error_records t = []
          ∧ ∃ c, open_binary (ctx self) u = Returns c
              ∧ ∀ store, store_after (s3_client self) t store
                         = <[(s3_bucket self, key_of u) := c]> store
      | Some e =>
          counts l' = merge (counts l) (0, 1)
          ∧ error_records t = ["Error copying file " +:+ u +:+ ": " +:+ str_exn e]
          ∧ ∀ store, store_after (s3_client self) t store = store
      end.
Proof.
  intros Hu. rewrite (copy_one_run _ _ _ Hu).
  unfold file_failure, put_of_file. rewrite Hu. cbn zeta.
  destruct (open_binary (ctx self) u) as [content|e] eqn:Hfetch.
  - destruct (put_object _ _ _ content) as [[]|e] eqn:Hput.
    + do 2 eexists. split; [done|]. cbn. repeat split; eauto.
      exists content. split; [done|]. intros store. by rewrite Hput.
    + do 2 eexists. split; [done|]. cbn. repeat split; eauto.
      intros store. by rewrite Hput.
  - do 2 eexists. split; [done|]. cbn. repeat split; try done; try lia.
    by intros [c ?].
Qed.

(** *** The loop over the subfolders *)

Lemma is_special_spec (subfolder : SPObject) :
  is_special subfolder = true
  ↔ properties subfolder !! "Name" = Some "."
    ∨ properties subfolder !! "Name" = Some ".."
    ∨ properties subfolder !! "Name" = Some "Forms".
Proof.
  unfold is_special, special_folders.
  destruct (properties subfolder !! "Name") as [name|].
  - rewrite bool_decide_eq_true, !elem_of_cons, elem_of_nil. split.
    + intros [->|[->|[->|[]]]]; auto.
    + intros [[= ->]|[[= ->]|[= ->]]]; auto.
  - split; [done|]. by intros [?|[?|?]].
Qed.

Lemma visit_special recurse subfolder l :
  is_special subfolder = true →
  visit_subfolder recurse subfolder l = ([], l, Ret ()).
Proof.
  unfold is_special, visit_subfolder, getitem.
  destruct (properties subfolder !! "Name") as [name|]; [|done].
  intros H%bool_decide_eq_true. run.
  by rewrite bool_decide_eq_false_2 by (by intros ?).
Qed.

Lemma visit_descends recurse subfolder r l :
  descends_to recurse subfolder r →
  visit_subfolder recurse subfolder l = (r.1, bump l r.2, Ret ()).
Proof.
  intros (name & u & Hname & Hns & Hu & Hrec).
  unfold visit_subfolder, getitem. rewrite Hname. run.
  rewrite bool_decide_eq_true_2 by done. rewrite Hu. run. rewrite Hrec.
  destruct r as [t [s e]]. cbn. by rewrite app_nil_r.
Qed.

Lemma visit_no_name recurse subfolder l :
  properties subfolder !! "Name" = None →
  visit_subfolder recurse subfolder l = ([], l, Raise (KeyError "Name")).
Proof. intros H. unfold visit_subfolder, getitem. by rewrite H. Qed.

Lemma visit_no_path recurse subfolder l :
  is_Some (properties subfolder !! "Name") →
  is_special subfolder = false →
  properties subfolder !! "ServerRelativeUrl" = None →
  visit_subfolder recurse subfolder l = ([], l, Raise (KeyError "ServerRelativeUrl")).
Proof.
  intros [name Hname] Hsp Hu. unfold is_special, visit_subfolder, getitem in *.
  rewrite Hname in *. run. apply bool_decide_eq_false in Hsp.
  rewrite bool_decide_eq_true_2 by done. by rewrite Hu.
Qed.

(** The loop over subfolders, when every subfolder without a special name
    is descended into: only those contribute events and counts. *)
Lemma for_each_subfolders recurse (subs : list SPObject) rs l :
  Forall2 (descends_to recurse) (filter (λ s, is_special s = false) subs) rs →
  for_each subs (visit_subfolder recurse) l
  = (concat rs.*1, bump l (foldr merge (0, 0) rs.*2), Ret ()).
Proof.
  revert rs l. induction subs as [|sub subs IH]; intros rs l Hrs.
  - rewrite filter_nil in Hrs. apply Forall2_nil_inv_l in Hrs as ->. cbn. by rewrite bump_0.
  - destruct (is_special sub) eqn:Hsp.
    + rewrite filter_cons_False in Hrs by (by rewrite Hsp).
      rewrite (for_each_cons_Ret _ _ _ _ _ _ (visit_special recurse sub l Hsp)).
      by rewrite (IH _ _ Hrs).
    + rewrite filter_cons_True in Hrs by done.
      apply Forall2_cons_inv_l in Hrs as (r & rs' & Hr & Hrs & ->).
      rewrite (for_each_cons_Ret _ _ _ _ _ _ (visit_descends recurse sub r l Hr)).
      rewrite (IH _ _ Hrs). cbn. by rewrite bump_bump.
Qed.

(** C6. On a folder that the client lists, whose files carry their path:
    a subfolder is special exactly when its name is ".", ".." or "Forms";
    when every subfolder that is not special is descended into, with the
    recursive calls returning [rs], the result of the folder is the counts
    of its files merged with the counts in [rs], and the events are those
    of the files followed by those of the calls in [rs].  The special
    subfolders are not listed, and nothing below them is counted. *)
Theorem copy_folder_skips_special (n : nat) (folder_url : string) (folder : Folder)
    (rs : list (list Event * TransferResult)) :
  get_folder (ctx self) folder_url = Returns folder →
  Forall has_path (files folder) →
  Forall2 (descends_to (copy_folder' n))
          (filter (λ s, is_special s = false) (folders folder)) rs →
  (∀ s, is_special s = true
        ↔ properties s !! "Name" = Some "." ∨ properties s !! "Name" = Some ".."
          ∨ properties s !! "Name" = Some "Forms")
  ∧ ∃ tf, copy_folder' (S n) folder_url
          = (EvGetFolder folder_url :: tf ++ concat rs.*1,
             Ret (merge (result_of (files folder)) (foldr merge (0, 0) rs.*2)))
      ∧ folder_requests tf = [].
Proof.
  intros Hget Hfs Hrs. split; [apply is_special_spec|].
  destruct (for_each_files (files folder) frame0 Hfs) as (tf & Hrun & _ & _ & Hg).
  exists tf. split; [|done].
  rewrite (copy_folder_listed _ _ _ Hget), (bind_Ret _ _ _ _ _ _ Hrun).
  rewrite (for_each_subfolders _ _ _ _ Hrs). cbn [fst snd].
  by rewrite bump_bump, counts_bump.
Qed.

(** ** No exception leaves [copy_folder] *)

Lemma copy_one_total (file_obj : SPObject) (l : Locals) :
  nonneg l →
  ∃ t l' o, copy_one' file_obj l = (t, l', o) ∧ o ≠ OutOfFuel ∧ nonneg l'.
Proof.
  intros [Hs He]. destruct (properties file_obj !! "ServerRelativeUrl") as [u|] eqn:Hu.
  - destruct (copy_one_step _ _ l Hu) as (t & -> & _).
    do 3 eexists. split; [done|]. split; [done|].
    unfold nonneg, bump. destruct (copies file_obj); cbn; lia.
  - rewrite (copy_one_no_path _ _ Hu). by do 3 eexists.
Qed.

Lemma for_each_total {A} (body : A → M unit) (xs : list A) (l : Locals) :
  (∀ x l, x ∈ xs → nonneg l →
     ∃ t l' o, body x l = (t, l', o) ∧ o ≠ OutOfFuel ∧ nonneg l') →
  nonneg l →
  ∃ t l' o, for_each xs body l = (t, l', o) ∧ o ≠ OutOfFuel ∧ nonneg l'.
Proof.
  revert l. induction xs as [|x xs IH]; intros l Hbody Hl.
  - by exists [], l, (Ret ()).
  - destruct (Hbody x l) as (t & l1 & o & Hx & Ho & Hl1); [by left|done|].
    destruct o as [[]|e|]; [| |done].
    + destruct (IH l1) as (t2 & l2 & o2 & Hxs & Ho2 & Hl2); [|done|].
      { intros y l' Hy. apply Hbody. by right. }
      rewrite (for_each_cons_Ret _ _ _ _ _ _ Hx), Hxs. by do 3 eexists.
    + rewrite (for_each_cons_Raise _ _ _ _ _ _ _ Hx). by do 3 eexists.
Qed.

Lemma visit_total recurse (subfolder : SPObject) (l : Locals) :
  (∀ name u, properties subfolder !! "Name" = Some name →
             name ∉ special_folders →
             properties subfolder !! "ServerRelativeUrl" = Some u →
             ∃ t r, recurse u = (t, Ret r) ∧ 0 <= r.1 ∧ 0 <= r.2) →
  nonneg l →
  ∃ t l' o, visit_subfolder recurse subfolder l = (t, l', o)
            ∧ o ≠ OutOfFuel ∧ nonneg l'.
Proof.
  intros Hrec Hl.
  destruct (properties subfolder !! "Name") as [name|] eqn:Hname.
  2:{ rewrite (visit_no_name _ _ _ Hname). by do 3 eexists. }
  destruct (is_special subfolder) eqn:Hsp.
  { rewrite (visit_special _ _ _ Hsp). by do 3 eexists. }
  destruct (properties subfolder !! "ServerRelativeUrl") as [u|] eqn:Hu.
  2:{ rewrite (visit_no_path _ _ _ (mk_is_Some _ _ Hname) Hsp Hu). by do 3 eexists. }
  assert (name ∉ special_folders) as Hns.
  { unfold is_special in Hsp. rewrite Hname in Hsp. by apply bool_decide_eq_false in Hsp. }
  destruct (Hrec name u) as (t & r & Hr & Hr1 & Hr2); try done.
  rewrite (visit_descends recurse subfolder (t, r) l).
  - do 3 eexists. split; [done|]. split; [done|].
    destruct Hl. unfold nonneg, bump. cbn. lia.
  - by exists name, u.
Qed.

Lemma tree_height_lt_S (d : nat) (folder_url : string) :
  tree_height_lt self d folder_url = true → tree_height_lt self (S d) folder_url = true.
Proof.
  revert folder_url. induction d as [|d IH]; intros url; [done|].
  intros H. cbn [tree_height_lt] in *.
  destruct (get_folder (ctx self) url) as [folder|]; [|done].
  rewrite forallb_forall in *. intros sub Hsub. specialize (H sub Hsub).
  destruct (properties sub !! "Name"); [|done].
  destruct (properties sub !! "ServerRelativeUrl"); [|done].
  apply orb_true_iff in H as [H|H]; apply orb_true_iff; [by left|right].
  by apply IH.
Qed.

Lemma tree_height_lt_le (d n : nat) (folder_url : string) :
  (d ≤ n)%nat →
  tree_height_lt self d folder_url = true → tree_height_lt self n folder_url = true.
Proof. induction 1 as [|m Hle IH]; [done|]. intros Hd. by apply tree_height_lt_S, IH. Qed.

(** With as much fuel as the folder tree is high, [copy_folder] returns
    counts, and they are not negative. *)
Lemma copy_folder_returns (n : nat) (folder_url : string) :
  tree_height_lt self n folder_url = true →
  ∃ t s e, copy_folder' n folder_url = (t, Ret (s, e)) ∧ 0 <= s ∧ 0 <= e.
Proof.
  revert folder_url. induction n as [|n IH]; intros url H; [done|].
  cbn [tree_height_lt] in H.
  destruct (get_folder (ctx self) url) as [folder|e] eqn:Hget.
  2:{ rewrite (copy_folder_not_listed _ _ _ Hget). by do 3 eexists. }
  rewrite (copy_folder_listed _ _ _ Hget).
  assert (nonneg frame0) as H0 by done.
  destruct (for_each_total copy_one' (files folder) frame0) as (t1 & l1 & o1 & H1 & Ho1 & Hl1);
    [by intros; apply copy_one_total|done|].
  destruct o1 as [[]|e1|]; [| |done].
  - rewrite (bind_Ret _ _ _ _ _ _ H1).
    destruct (for_each_total (visit_subfolder (copy_folder' n)) (folders folder) l1)
      as (t2 & l2 & o2 & H2 & Ho2 & [Hs He]); [|done|].
    { intros sub l Hsub. apply visit_total. intros name u Hname Hns Hu.
      rewrite forallb_forall in H. specialize (H sub). rewrite Hname, Hu in H.
      rewrite bool_decide_eq_false_2 in H by done.
      destruct (IH u) as (t & s & e & -> & ? & ?); [|by do 2 eexists].
      apply H. by apply list_elem_of_In. }
    rewrite H2. destruct o2 as [[]|e2|]; [| |done]; cbn; do 3 eexists;
      (split; [done|]); lia.
  - rewrite (bind_Raise _ _ _ _ _ _ H1). destruct Hl1. do 3 eexists.
    split; [done|]. lia.
Qed.

Lemma copy_folder_no_raise (n : nat) (folder_url : string) (e : Exn) :
  (copy_folder' n folder_url).2 ≠ Raise e.
Proof.
  destruct n as [|n]; [done|].
  destruct (get_folder (ctx self) folder_url) as [folder|e'] eqn:Hget.
  - rewrite (copy_folder_listed _ _ _ Hget).
    by destruct ((for_each (files folder) copy_one' ;;
                  for_each (folders folder) (visit_subfolder (copy_folder' n))) frame0)
      as [[t l] [[]|e1|]].
  - by rewrite (copy_folder_not_listed _ _ _ Hget).
Qed.

(** *** More fuel does not change a result *)

Lemma visit_fuel recurse1 recurse2 (subfolder : SPObject) l t l' o :
  (∀ u t r, recurse1 u = (t, Ret r) → recurse2 u = (t, Ret r)) →
  (∀ u e, (recurse1 u).2 ≠ Raise e) →
  visit_subfolder recurse1 subfolder l = (t, l', o) → o ≠ OutOfFuel →
  visit_subfolder recurse2 subfolder l = (t, l', o).
Proof.
  intros Hmono Hnr. unfold visit_subfolder, getitem.
  destruct (properties subfolder !! "Name") as [name|]; [|done]. run.
  destruct (bool_decide (name ∉ special_folders)); [|done].
  destruct (properties subfolder !! "ServerRelativeUrl") as [u|]; [|done]. run.
  destruct (recurse1 u) as [t1 [r| e |]] eqn:H1.
  - by rewrite (Hmono _ _ _ H1).
  - by destruct (Hnr u e); rewrite H1.
  - cbn. by intros [= <- <- <-].
Qed.

Lemma for_each_fuel recurse1 recurse2 (subs : list SPObject) l t l' o :
  (∀ u t r, recurse1 u = (t, Ret r) → recurse2 u = (t, Ret r)) →
  (∀ u e, (recurse1 u).2 ≠ Raise e) →
  for_each subs (visit_subfolder recurse1) l = (t, l', o) → o ≠ OutOfFuel →
  for_each subs (visit_subfolder recurse2) l = (t, l', o).
Proof.
  intros Hmono Hnr. revert l t l' o. induction subs as [|sub subs IH]; intros l t l' o; [done|].
  cbn [for_each]. unfold mbind, M_bind.
  destruct (visit_subfolder recurse1 sub l) as [[t1 l1] o1] eqn:H1.
  destruct o1 as [[]|e|].
  - rewrite (visit_fuel _ _ _ _ _ _ _ Hmono Hnr H1) by done.
    destruct (for_each subs (visit_subfolder recurse1) l1) as [[t2 l2] o2] eqn:H2.
    intros [= <- <- <-] Ho. by rewrite (IH _ _ _ _ H2 Ho).
  - rewrite (visit_fuel _ _ _ _ _ _ _ Hmono Hnr H1) by done. done.
  - by intros [= <- <- <-].
Qed.

(** Once [copy_folder] returns with some fuel, it returns the same counts
    and emits the same events with more. *)
Lemma copy_folder_fuel_S (n : nat) (folder_url : string) t r :
  copy_folder' n folder_url = (t, Ret r) → copy_folder' (S n) folder_url = (t, Ret r).
Proof.
  revert folder_url t r. induction n as [|n IH]; intros url t r; [done|].
  destruct (get_folder (ctx self) url) as [folder|e] eqn:Hget.
  2:{ by rewrite !(copy_folder_not_listed _ _ _ Hget). }
  rewrite !(copy_folder_listed _ _ _ Hget). unfold mbind, M_bind.
  destruct (for_each (files folder) copy_one' frame0) as [[t1 l1] [[]|e1|]]; try done.
  destruct (for_each (folders folder) (visit_subfolder (copy_folder' n)) l1)
    as [[t2 l2] o2] eqn:H2.
  assert (o2 ≠ OutOfFuel → for_each (folders folder) (visit_subfolder (copy_folder' (S n))) l1
          = (t2, l2, o2)) as Hsame.
  { apply (for_each_fuel (copy_folder' n)); [apply IH|apply copy_folder_no_raise|done]. }
  destruct o2 as [[]|e2|]; [rewrite Hsame by done; done..|done].
Qed.

Lemma copy_folder_fuel_le (n m : nat) (folder_url : string) t r :
  (n ≤ m)%nat →
  copy_folder' n folder_url = (t, Ret r) → copy_folder' m folder_url = (t, Ret r).
Proof. induction 1 as [|m Hle IH]; [done|]. intros Hn. by apply copy_folder_fuel_S, IH. Qed.

(** Over the exceptions of [Exn].  Whatever the two clients answer, [copy_folder] never ends by
    raising: its outcome is never an exception, at any fuel.  When the
    folder tree below the path has fewer than [d] levels, every fuel from
    [d] on is enough: [copy_folder] returns a pair of counts, neither of
    them negative.  This holds also when a [properties] lookup raises
    inside the error handler of a file or inside the loop over the
    subfolders. *)
Theorem copy_folder_never_raises :
  (∀ n folder_url e, (copy_folder' n folder_url).2 ≠ Raise e)
  ∧ (∀ d folder_url, tree_height_lt self d folder_url = true →
       ∀ n, (d ≤ n)%nat →
         ∃ t s e, copy_folder' n folder_url = (t, Ret (s, e)) ∧ 0 <= s ∧ 0 <= e).
Proof.
  split; [apply copy_folder_no_raise|].
  - intros d url H n Hn. apply copy_folder_returns. by apply (tree_height_lt_le d).
Qed.

(** ** An exception that escapes the loops *)

(** C10. On a folder that the client lists.  If a file object lacks its
    path, the exception escapes the per-file handler (line 139 raises inside
    it): [copy_folder] returns the counts of the files before it, with one
    more error; the files after it are not fetched and no subfolder is
    listed.  If, after the files, a subfolder lacks its name, or is not
    special and lacks its path, the exception escapes the loop over the
    subfolders: [copy_folder] returns the counts of the files merged with
    those of the subfolders descended into before it, with one more error;
    the subfolders after it are not visited. *)
Theorem copy_folder_partial_progress (n : nat) (folder_url : string) (folder : Folder) :
  get_folder (ctx self) folder_url = Returns folder →
  (∀ pre bad post,
     files folder = pre ++ bad :: post →
     Forall has_path pre →
     properties bad !! "ServerRelativeUrl" = None →
     ∃ t, copy_folder' (S n) folder_url = (t, Ret (merge (result_of pre) (0, 1)))
       ∧ fetch_attempts t = omap (λ f, properties f !! "ServerRelativeUrl") pre
       ∧ put_attempts t = omap put_of pre
       ∧ folder_requests t = [folder_url])
  ∧ (∀ pre bad post rs,
     Forall has_path (files folder) →
     folders folder = pre ++ bad :: post →
     Forall2 (descends_to (copy_folder' n)) (filter (λ s, is_special s = false) pre) rs →
     properties bad !! "Name" = None
       ∨ (is_special bad = false ∧ properties bad !! "ServerRelativeUrl" = None) →
     ∃ tf e, copy_folder' (S n) folder_url
         = (EvGetFolder folder_url :: tf ++ concat rs.*1
              ++ [EvLogError ("Error processing folder " +:+ folder_url
                              +:+ ": " +:+ str_exn e)],
            Ret (merge (merge (result_of (files folder)) (foldr merge (0, 0) rs.*2))
                       (0, 1)))
       ∧ folder_requests tf = []).
Proof.
  intros Hget. split.
  - intros pre bad post Hfiles Hpre Hbad.
    destruct (for_each_files pre frame0 Hpre) as (tp & Hrun & Hp & Hf & Hg).
    rewrite (copy_folder_listed _ _ _ Hget), Hfiles.
    assert (for_each (pre ++ bad :: post) copy_one' frame0
            = (tp, bump frame0 (result_of pre), Raise (KeyError "ServerRelativeUrl"))) as Hloop.
    { rewrite (for_each_app_Ret _ _ _ _ _ _ Hrun).
      rewrite (for_each_cons_Raise _ _ _ _ _ _ _ (copy_one_no_path bad _ Hbad)).
      cbn. by rewrite app_nil_r. }
    rewrite (bind_Raise _ _ _ _ _ _ Hloop).
    eexists. split.
    { do 2 f_equal. unfold merge, bump, frame0. cbn. f_equal; lia. }
    unfold fetch_attempts, put_attempts, folder_requests in *.
    cbn [omap list_omap]. rewrite !omap_app, Hp, Hf, Hg. cbn.
    by rewrite !app_nil_r.
  - intros pre bad post rs Hfs Hsubs Hrs Hbad.
    destruct (for_each_files (files folder) frame0 Hfs) as (tf & Hrun & _ & _ & Hg).
    assert (∃ e, visit_subfolder (copy_folder' n) bad
                   (bump (bump frame0 (result_of (files folder))) (foldr merge (0, 0) rs.*2))
                 = ([], bump (bump frame0 (result_of (files folder)))
                             (foldr merge (0, 0) rs.*2), Raise e)) as [e Hvisit].
    { destruct (properties bad !! "Name") as [name|] eqn:Hname.
      - destruct Hbad as [?|[Hsp Hu]]; [done|].
        eexists. by apply visit_no_path.
      - eexists. by apply visit_no_name. }
    exists tf, e. split; [|done].
    rewrite (copy_folder_listed _ _ _ Hget), (bind_Ret _ _ _ _ _ _ Hrun), Hsubs.
    rewrite (for_each_app_Ret _ _ _ _ _ _ (for_each_subfolders _ pre rs _ Hrs)).
    rewrite (for_each_cons_Raise _ _ _ _ _ _ _ Hvisit). cbn [fst snd].
    rewrite app_nil_r, bump_bump. cbn [bump success_count error_count].
    rewrite <- app_assoc. do 2 f_equal.
    unfold merge, frame0. cbn. f_equal; lia.
Qed.

End Walk.

(** ** The theorems at concrete inputs *)

Lemma s3_key_of_injective_witness :
  s3_key_of test_urlparse_path test_self "/sites/test/Shared Documents/file1.txt"
  ≠ s3_key_of test_urlparse_path test_self "Shared Documents/file2.txt"
  ∧ s3_key_of test_urlparse_path test_self "/sites/test/Shared Documents/file1.txt"
    ≠ s3_key_of test_urlparse_path test_self "/sites/test/Shared Documents/file2.txt".
Proof.
  split.
  - apply (proj1 (s3_key_of_injective test_urlparse_path test_self)).
    vm_compute. discriminate.
  - apply (proj2 (s3_key_of_injective test_urlparse_path test_self)
             "Shared Documents/file1.txt" "Shared Documents/file2.txt").
    + reflexivity.
    + reflexivity.
    + discriminate.
Defined.

(** The hypothesis on relative paths is needed: paths that are not below
    the site root can share a relative path, hence a key. *)
Example s3_key_of_same_relative_path :
  s3_key_of test_urlparse_path test_self "/sites/test/Shared Documents/file1.txt"
  = s3_key_of test_urlparse_path test_self "/Shared Documents/file1.txt".
Proof. reflexivity. Qed.

Lemma get_relative_path_spec_witness :
  (∃ k, "/sites/test//Shared Documents/file1.txt"
        = "/sites/test" +:+ seps k +:+ "Shared Documents/file1.txt")
  ∧ (∃ k, "//Shared Documents/file1.txt" = seps k +:+ "Shared Documents/file1.txt").
Proof.
  split.
  - apply (get_relative_path_spec test_urlparse_path test_self
             "/sites/test//Shared Documents/file1.txt").
    by exists "//Shared Documents/file1.txt".
  - apply (get_relative_path_spec test_urlparse_path test_self
             "//Shared Documents/file1.txt").
    intros [Q HQ]. discriminate HQ.
Defined.

Lemma copy_folder_listing_fails_witness :
  ∃ t, copy_folder test_urlparse_path 1 test_self_denied "/sites/test/Private" = (t, Ret (0, 1))
    ∧ put_attempts t = []
    ∧ fetch_attempts t = []
    ∧ folder_requests t = ["/sites/test/Private"]
    ∧ error_records t = ["Error processing folder /sites/test/Private: Access denied"]
    ∧ ∀ store, store_after (s3_client test_self_denied) t store = store.
Proof.
  apply (copy_folder_listing_fails test_urlparse_path test_self_denied 0
           "/sites/test/Private" (ClientError "Access denied")).
  reflexivity.
Defined.

Lemma has_path_obj (url name : string) : has_path (obj url name).
Proof. by exists url. Qed.

Lemma copy_folder_flat_witness :
  ∃ t, copy_folder test_urlparse_path 1 test_self_error "/sites/test/Shared Documents"
       = (t, Ret (1, 1))
    ∧ fetch_attempts t = ["/sites/test/Shared Documents/file1.txt";
                          "/sites/test/Shared Documents/file2.txt"]
    ∧ put_attempts t
      = [("test-bucket", "test-prefix/Shared Documents/file1.txt", test_content)].
Proof.
  apply (copy_folder_flat test_urlparse_path test_self_error 0
           "/sites/test/Shared Documents" (mkFolder [test_file1; test_file2] [])).
  - reflexivity.
  - reflexivity.
  - repeat constructor; apply has_path_obj.
Defined.

Lemma copy_one_spec_witness :
  ∃ t l', copy_one test_urlparse_path test_self_error test_file1 frame0 = (t, l', Ret ())
    ∧ length (put_attempts t) = 1%nat
    ∧ counts l' = (1, 0)
    ∧ ∀ store, store_after always_put t store
               !! ("test-bucket", "test-prefix/Shared Documents/file1.txt")
               = Some test_content.
Proof.
  destruct (copy_one_spec test_urlparse_path test_self_error test_file1
              "/sites/test/Shared Documents/file1.txt" frame0)
    as (t & l' & Hrun & _ & _ & Hone & Hcase); [reflexivity|].
  exists t, l'. split; [exact Hrun|]. split.
  - apply Hone. by exists test_content.
  - assert (file_failure test_urlparse_path test_self_error test_file1 = None) as Hok
      by reflexivity.
    rewrite Hok in Hcase. destruct Hcase as (Hcount & _ & c & Hc & Hstore).
    split; [exact Hcount|]. intros store. rewrite Hstore.
    injection Hc as <-. apply lookup_insert_eq.
Defined.

(** C8 as stated fails: when the fetch of a file raises, the step ends
    with an error counted and no write attempted, not one. *)
Lemma copy_one_fetch_failure_writes_nothing :
  let r := copy_one test_urlparse_path test_self_error test_file2 frame0 in
  r.2 = Ret ()
  ∧ counts r.1.2 = (0, 1)
  ∧ put_attempts r.1.1 = []
  ∧ length (put_attempts r.1.1) ≠ 1%nat.
Proof. vm_compute. repeat split; discriminate. Qed.

Lemma copy_folder_never_raises_witness :
  ∃ t s e, copy_folder test_urlparse_path 2 test_self "/sites/test/Shared Documents"
           = (t, Ret (s, e)) ∧ 0 <= s ∧ 0 <= e.
Proof.
  apply (proj2 (copy_folder_never_raises test_urlparse_path test_self) 2%nat
           "/sites/test/Shared Documents").
  - vm_compute. reflexivity.
  - lia.
Defined.

Lemma copy_folder_skips_special_witness :
  ∃ tf, copy_folder test_urlparse_path 2 test_self_forms "/sites/test/Shared Documents"
        = (EvGetFolder "/sites/test/Shared Documents" :: tf
             ++ (copy_folder test_urlparse_path 1 test_self_forms
                   "/sites/test/Shared Documents/subfolder").1 ++ [],
           Ret (2, 0))
    ∧ folder_requests tf = [].
Proof.
  apply (copy_folder_skips_special test_urlparse_path test_self_forms 1
           "/sites/test/Shared Documents"
           (mkFolder [test_file1] [test_forms; test_subfolder])
           [((copy_folder test_urlparse_path 1 test_self_forms
                "/sites/test/Shared Documents/subfolder").1, (1, 0))]).
  - reflexivity.
  - repeat constructor; apply has_path_obj.
  - change (filter _ _) with [test_subfolder]. repeat constructor.
    exists "subfolder", "/sites/test/Shared Documents/subfolder".
    repeat split; try reflexivity.
    apply (bool_decide_unpack _). vm_compute. exact I.
Defined.

Lemma copy_folder_partial_progress_witness :
  (∃ t, copy_folder test_urlparse_path 1 test_self_no_path "/sites/test/Shared Documents"
        = (t, Ret (1, 1))
     ∧ fetch_attempts t = ["/sites/test/Shared Documents/file1.txt"]
     ∧ put_attempts t
       = [("test-bucket", "test-prefix/Shared Documents/file1.txt", test_content)]
     ∧ folder_requests t = ["/sites/test/Shared Documents"])
  ∧ (copy_folder test_urlparse_path 2 test_self_no_name "/sites/test/Shared Documents").2
    = Ret (2, 1).
Proof.
  split.
  - apply (proj1 (copy_folder_partial_progress test_urlparse_path test_self_no_path 0
                    "/sites/test/Shared Documents"
                    (mkFolder [test_file1; test_no_path; test_file2] [test_subfolder])
                    eq_refl)
             [test_file1] test_no_path [test_file2]).
    + reflexivity.
    + repeat constructor; apply has_path_obj.
    + reflexivity.
  - destruct (proj2 (copy_folder_partial_progress test_urlparse_path test_self_no_name 1
                       "/sites/test/Shared Documents"
                       (mkFolder [test_file1]
                          [test_forms; test_subfolder; test_no_name; test_subfolder])
                       eq_refl)
                [test_forms; test_subfolder] test_no_name [test_subfolder]
                [((copy_folder test_urlparse_path 1 test_self_no_name
                     "/sites/test/Shared Documents/subfolder").1, (1, 0))])
      as (tf & e & Hrun & _).
    + repeat constructor; apply has_path_obj.
    + reflexivity.
    + change (filter _ _) with [test_subfolder]. repeat constructor.
      exists "subfolder", "/sites/test/Shared Documents/subfolder".
      repeat split; try reflexivity.
      apply (bool_decide_unpack _). vm_compute. exact I.
    + left. reflexivity.
    + rewrite Hrun. reflexivity.
Defined.

(** ** More on the prefix and on relative paths *)

Lemma seps_app (j k : nat) : seps j +:+ seps k = seps (j + k).
Proof. induction j as [|j IH]; [done|]. cbn [seps Nat.add]. by rewrite app_String, IH. Qed.

Lemma lstrip_slash_id (r : string) : startswith r "/" = false → lstrip r "/" = r.
Proof. exact (lstrip_slash_unique 0 r). Qed.

Lemma rstrip_seps (k : nat) : rstrip (seps k) "/" = "".
Proof. induction k as [|k IH]; [done|]. cbn [seps rstrip]. by rewrite IH. Qed.

(** The run removed by [rstrip] is the longest one. *)
Lemma rstrip_slash_unique (base : string) (k : nat) :
  endswith_char base "/" = false → rstrip (base +:+ seps k) "/" = base.
Proof.
  induction base as [|c base IH]; intros Hb.
  - apply rstrip_seps.
  - rewrite app_String. cbn [rstrip]. destruct base as [|d base].
    + rewrite app_empty_l, rstrip_seps, in_chars_slash.
      cbn in Hb. by rewrite Hb.
    + rewrite IH by done. done.
Qed.

Lemma app_eq_empty (s t : string) : s +:+ t = "" → s = "".
Proof. by destruct s. Qed.

(** Normalizing a prefix twice is normalizing it once. *)
Theorem normalize_prefix_idempotent (prefix : string) :
  normalize_prefix (normalize_prefix prefix) = normalize_prefix prefix.
Proof.
  destruct (normalize_prefix_spec prefix) as [[_ ->]|[_ (base & k & _ & Hb & ->)]]; [done|].
  unfold normalize_prefix. destruct (decide (base +:+ "/" = "")) as [He|_].
  - by destruct base.
  - change (base +:+ "/") with (base +:+ seps 1) at 1.
    by rewrite (rstrip_slash_unique base 1 Hb).
Qed.

(** Trailing separators of a configured prefix that is not empty do not
    matter, and a prefix made of separators only is normalized to a single
    separator, not to the empty prefix. *)
Theorem normalize_prefix_trailing_seps (prefix : string) (k : nat) :
  (prefix ≠ "" → normalize_prefix (prefix +:+ seps k) = normalize_prefix prefix)
  ∧ normalize_prefix (seps (S k)) = "/".
Proof.
  split.
  - intros Hne. unfold normalize_prefix.
    rewrite decide_False by (by intros ->%app_eq_empty). rewrite (decide_False _ _ Hne).
    destruct (rstrip_slash_spec prefix) as [[j Hj] Hb].
    rewrite Hj at 1. rewrite app_assoc_str, seps_app.
    by rewrite (rstrip_slash_unique _ _ Hb).
  - unfold normalize_prefix. rewrite decide_False by done. by rewrite rstrip_seps.
Qed.

Section EntryPoints.

Variable urlparse_path : string → string.
Variable self : SharePointToS3.

(** When the path of the site URL is empty or begins with a separator, a
    relative path is mapped to itself: applying [_get_relative_path] to its
    own result changes nothing. *)
Theorem get_relative_path_fixed_point (P : string) :
  urlparse_path (sharepoint_url self) = ""
    ∨ startswith (urlparse_path (sharepoint_url self)) "/" = true →
  _get_relative_path urlparse_path self (_get_relative_path urlparse_path self P)
  = _get_relative_path urlparse_path self P.
Proof.
  intros HR. unfold _get_relative_path.
  set (R := urlparse_path (sharepoint_url self)) in *.
  pose proof (relative_path_no_leading_sep R P) as Hr.
  set (r := relative_path R P) in *.
  unfold relative_path at 1. destruct HR as [->|HR].
  - by apply lstrip_slash_id.
  - assert (startswith r R = false) as ->; [|by apply lstrip_slash_id].
    destruct R as [|a R]; [done|]. cbn in HR.
    destruct (decide ("/"%char = a)) as [<-|]; [|done].
    destruct r as [|b r]; [done|]. cbn in Hr |- *.
    by destruct (decide ("/"%char = b)).
Qed.

Lemma start_transfer_unfold (fuel : nat) (rel : string) :
  start_transfer urlparse_path fuel self rel
  = (EvLogInfo ("Starting transfer from SharePoint folder: "
                +:+ start_url urlparse_path self rel)
     :: EvLogInfo ("Target S3 location: s3://" +:+ s3_bucket self +:+ "/" +:+ s3_prefix self)
     :: (copy_folder urlparse_path fuel self (start_url urlparse_path self rel)).1,
     (copy_folder urlparse_path fuel self (start_url urlparse_path self rel)).2).
Proof. reflexivity. Qed.

(** The URL at which [start_transfer] starts is the site path, with a
    separator added unless it ends with one, followed by the folder
    argument without its leading separators; with fuel left, the first
    folder requested from the client is that URL. *)
Theorem start_transfer_junction (n : nat) (rel : string) :
  let site := urlparse_path (sharepoint_url self) in
  ∃ site' r k,
    start_url urlparse_path self rel = site' +:+ r
    ∧ rel = seps k +:+ r
    ∧ startswith r "/" = false
    ∧ endswith_char site' "/" = true
    ∧ (site' = site ∨ (endswith_char site "/" = false ∧ site' = site +:+ "/"))
    ∧ head (folder_requests (start_transfer urlparse_path (S n) self rel).1)
      = Some (site' +:+ r).
Proof.
  intros site. destruct (lstrip_slash_spec rel) as [[k Hk] Hr].
  exists (if endswith_char site "/" then site else site +:+ "/"), (lstrip rel "/"), k.
  split; [done|]. split; [done|]. split; [done|]. split; [|split].
  - destruct (endswith_char site "/") eqn:He; [done|]. by rewrite endswith_char_snoc.
  - destruct (endswith_char site "/"); auto.
  - rewrite start_transfer_unfold. unfold start_url. fold site.
    set (u := _ +:+ lstrip rel "/"). cbn [fst folder_requests omap list_omap].
    destruct (get_folder (ctx self) u) as [folder|e] eqn:Hget.
    + rewrite (copy_folder_listed _ _ _ _ _ Hget).
      by destruct ((for_each (files folder) (copy_one urlparse_path self) ;;
                    for_each (folders folder)
                      (visit_subfolder (copy_folder urlparse_path n self))) frame0)
        as [[t l] [[]|e1|]].
    + by rewrite (copy_folder_not_listed _ _ _ _ _ Hget).
Qed.

(** The relative path of the URL at which [start_transfer] starts is the
    folder argument without its leading separators. *)
Theorem start_url_relative_path (rel : string) :
  _get_relative_path urlparse_path self (start_url urlparse_path self rel)
  = lstrip rel "/".
Proof.
  unfold _get_relative_path, start_url, relative_path.
  set (R := urlparse_path (sharepoint_url self)).
  destruct (lstrip_slash_spec rel) as [_ Hr].
  destruct (endswith_char R "/").
  - rewrite startswith_app, slice_from_app. by apply lstrip_slash_id.
  - rewrite app_assoc_str, startswith_app, slice_from_app.
    exact (lstrip_slash_unique 1 _ Hr).
Qed.

(** Leading separators of the folder argument do not matter to
    [start_transfer]. *)
Theorem start_transfer_leading_seps (fuel k : nat) (rel : string) :
  start_transfer urlparse_path fuel self (seps k +:+ rel)
  = start_transfer urlparse_path fuel self rel.
Proof.
  rewrite !start_transfer_unfold. unfold start_url.
  destruct (lstrip_slash_spec rel) as [[j Hj] Hr].
  assert (lstrip (seps k +:+ rel) "/" = lstrip rel "/") as ->; [|done].
  rewrite Hj at 1. rewrite <- app_assoc_str, seps_app.
  by apply lstrip_slash_unique.
Qed.

End EntryPoints.

(** ** What every trace of the walk satisfies *)

Section TraceProperty.

Variable urlparse_path : string → string.
Variable self : SharePointToS3.

(** A property of traces that holds of the empty trace and of the
    concatenation of two traces that have it. *)
Variable P : list Event → Prop.
Hypothesis P_nil : P [].
Hypothesis P_app : ∀ t1 t2, P t1 → P t2 → P (t1 ++ t2).

Lemma bind_trace {A B} (m : M A) (f : A → M B) (l : Locals) :
  P (m l).1.1 → (∀ a l', P (f a l').1.1) → P ((m ≫= f) l).1.1.
Proof.
  intros Hm Hf. unfold mbind, M_bind.
  destruct (m l) as [[t1 l1] [a|e|]]; try done.
  specialize (Hf a l1). destruct (f a l1) as [[t2 l2] o]. by apply P_app.
Qed.

Lemma for_each_trace {A} (body : A → M unit) (xs : list A) (l : Locals) :
  (∀ x l', P (body x l').1.1) → P (for_each xs body l).1.1.
Proof.
  intros Hbody. revert l. induction xs as [|x xs IH]; intros l; [done|].
  cbn [for_each]. by apply bind_trace.
Qed.

Lemma visit_trace recurse (subfolder : SPObject) (l : Locals) :
  (∀ u, P (recurse u).1) → P (visit_subfolder recurse subfolder l).1.1.
Proof.
  intros Hrec. unfold visit_subfolder, getitem.
  destruct (properties subfolder !! "Name") as [name|]; [|done]. run.
  destruct (bool_decide (name ∉ special_folders)); [|done].
  destruct (properties subfolder !! "ServerRelativeUrl") as [u|]; [|done]. run.
  specialize (Hrec u). destruct (recurse u) as [t [[s e]|e|]]; cbn in *;
    by rewrite ?app_nil_r.
Qed.

(** When the events of one folder request, of one error record and of one
    per-file step have the property, every trace of [copy_folder] has it,
    at any fuel and whatever the outcome. *)
Lemma copy_folder_trace (n : nat) (folder_url : string) :
  (∀ u, P [EvGetFolder u]) →
  (∀ m, P [EvLogError m]) →
  (∀ f l, P (copy_one urlparse_path self f l).1.1) →
  P (copy_folder urlparse_path n self folder_url).1.
Proof.
  intros Hget Herr Hone. revert folder_url. induction n as [|n IH]; intros url; [done|].
  destruct (get_folder (ctx self) url) as [folder|e] eqn:Hf.
  - rewrite (copy_folder_listed _ _ _ _ _ Hf).
    set (r := (for_each (files folder) (copy_one urlparse_path self) ;;
               for_each (folders folder)
                 (visit_subfolder (copy_folder urlparse_path n self))) frame0).
    assert (P r.1.1) as Hloops.
    { apply bind_trace; [by apply for_each_trace|]. intros _ l'.
      apply for_each_trace. intros sub l''. by apply visit_trace. }
    destruct r as [[t l] [[]|e|]]; cbn in *.
    + by apply (P_app [_]).
    + apply (P_app [_]); [done|]. by apply P_app.
    + by apply (P_app [_]).
  - rewrite (copy_folder_not_listed _ _ _ _ _ Hf). by apply (P_app [_] [_]).
Qed.

End TraceProperty.

Section WalkInvariants.

Variable urlparse_path : string → string.
Variable self : SharePointToS3.

Local Abbreviation walk n := (copy_folder urlparse_path n self).

Lemma put_attempts_app t1 t2 : put_attempts (t1 ++ t2) = put_attempts t1 ++ put_attempts t2.
Proof. apply omap_app. Qed.

Lemma fetch_attempts_app t1 t2 :
  fetch_attempts (t1 ++ t2) = fetch_attempts t1 ++ fetch_attempts t2.
Proof. apply omap_app. Qed.

Lemma error_records_app t1 t2 :
  error_records (t1 ++ t2) = error_records t1 ++ error_records t2.
Proof. apply omap_app. Qed.

(** Every write attempted in a trace is of the content fetched for a file
    fetched in that trace, to the configured bucket, under the key of that
    file. *)
Lemma copy_folder_puts_fetched (n : nat) (folder_url : string) :
  ∀ b k c, (b, k, c) ∈ put_attempts (walk n folder_url).1 →
    ∃ u, u ∈ fetch_attempts (walk n folder_url).1
       ∧ open_binary (ctx self) u = Returns c
       ∧ b = s3_bucket self
       ∧ k = s3_key_of urlparse_path self u.
Proof.
  apply (copy_folder_trace urlparse_path self
           (λ t, ∀ b k c, (b, k, c) ∈ put_attempts t →
              ∃ u, u ∈ fetch_attempts t ∧ open_binary (ctx self) u = Returns c
                 ∧ b = s3_bucket self ∧ k = s3_key_of urlparse_path self u)).
  - intros b k c H. by apply elem_of_nil in H.
  - intros t1 t2 H1 H2 b k c. rewrite put_attempts_app, fetch_attempts_app.
    intros [H|H]%elem_of_app.
    + destruct (H1 _ _ _ H) as (u & Hu & ?). exists u. split; [|done].
      apply elem_of_app. by left.
    + destruct (H2 _ _ _ H) as (u & Hu & ?). exists u. split; [|done].
      apply elem_of_app. by right.
  - intros u b k c H. by apply elem_of_nil in H.
  - intros m b k c H. by apply elem_of_nil in H.
  - intros f l b k c.
    destruct (properties f !! "ServerRelativeUrl") as [u|] eqn:Hu.
    + rewrite (copy_one_run _ _ _ _ _ Hu). cbn zeta.
      destruct (open_binary (ctx self) u) as [content|e] eqn:Hfetch.
      * destruct (put_object _ _ _ content) as [[]|e]; cbn;
          intros [= -> -> ->]%list_elem_of_singleton; exists u; (split; [by left|done]).
      * cbn. intros H. by apply elem_of_nil in H.
    + rewrite (copy_one_no_path _ _ _ _ Hu). cbn. intros H. by apply elem_of_nil in H.
Qed.

(** No write of the walk is made with content that was not fetched: the
    content of every write attempt is what the SharePoint client returned
    for a file fetched during the walk, the bucket is the configured one and
    the key is the configured prefix followed by that file's relative
    path. *)
Theorem copy_folder_writes_what_it_fetched (n : nat) (folder_url : string)
    (b k : string) (c : bytes) :
  (b, k, c) ∈ put_attempts (walk n folder_url).1 →
  ∃ u, u ∈ fetch_attempts (walk n folder_url).1
     ∧ open_binary (ctx self) u = Returns c
     ∧ b = s3_bucket self
     ∧ k = s3_prefix self +:+ _get_relative_path urlparse_path self u
     ∧ startswith k (s3_prefix self) = true.
Proof.
  intros Hput. destruct (copy_folder_puts_fetched _ _ _ _ _ Hput) as (u & Hu & Hc & Hb & Hk).
  exists u. repeat split; try done.
  rewrite Hk. apply startswith_app.
Qed.

Lemma store_after_frame (s3 : S3Client) (t : list Event) store (key : string * string) :
  (∀ b k c, (b, k, c) ∈ put_attempts t → (b, k) ≠ key) →
  store_after s3 t store !! key = store !! key.
Proof.
  revert store. induction t as [|ev t IH]; intros store Hputs; [done|].
  destruct ev as [u|u|b k body|m|m]; cbn [store_after];
    try (apply IH; intros b' k' c' H; apply (Hputs b' k' c'); exact H).
  assert ((b, k) ≠ key) as Hne by (apply (Hputs b k body); by left).
  assert (∀ b' k' c', (b', k', c') ∈ put_attempts t → (b', k') ≠ key) as Ht.
  { intros b' k' c' H. apply (Hputs b' k' c'). by right. }
  destruct (put_object s3 b k body); rewrite IH by done; [|done].
  by rewrite lookup_insert_ne.
Qed.

(** The walk leaves alone every object of the destination that is in
    another bucket or whose key does not begin with the configured
    prefix. *)
Theorem copy_folder_store_frame (n : nat) (folder_url : string) store (b k : string) :
  b ≠ s3_bucket self ∨ startswith k (s3_prefix self) = false →
  store_after (s3_client self) (walk n folder_url).1 store !! (b, k) = store !! (b, k).
Proof.
  intros Hout. apply store_after_frame. intros b' k' c' Hput [= -> ->].
  destruct (copy_folder_puts_fetched _ _ _ _ _ Hput) as (u & _ & _ & Hb & Hk).
  destruct Hout as [Hne|Hsw]; [done|].
  rewrite Hk in Hsw. unfold s3_key_of in Hsw. by rewrite startswith_app in Hsw.
Qed.

Lemma store_after_origin (s3 : S3Client) (t : list Event) store (b k : string) (c : bytes) :
  store_after s3 t store !! (b, k) = Some c →
  store !! (b, k) = Some c ∨ (b, k, c) ∈ put_attempts t.
Proof.
  revert store. induction t as [|ev t IH]; intros store; [by left|].
  destruct ev as [u|u|b' k' body|m|m]; cbn [store_after]; try apply IH.
  assert (∀ st, store_after s3 t st !! (b, k) = Some c →
                st !! (b, k) = Some c ∨ (b, k, c) ∈ put_attempts (EvPutObject b' k' body :: t))
    as IH'.
  { intros st H. destruct (IH st H) as [?|?]; [by left|right]. by right. }
  destruct (put_object s3 b' k' body); [|apply IH'].
  intros H. destruct (IH' _ H) as [Hst|?]; [|by right].
  destruct (decide ((b', k') = (b, k))) as [[= -> ->]|Hne].
  - rewrite lookup_insert_eq in Hst. injection Hst as ->. right. by left.
  - rewrite lookup_insert_ne in Hst by done. by left.
Qed.

(** Whatever the destination holds after the walk was either there before
    or is the content that the SharePoint client returned for a file
    fetched during the walk, held in the configured bucket under that
    file's key. *)
Theorem copy_folder_store_content (n : nat) (folder_url : string) store
    (b k : string) (c : bytes) :
  store_after (s3_client self) (walk n folder_url).1 store !! (b, k) = Some c →
  store !! (b, k) = Some c
  ∨ ∃ u, u ∈ fetch_attempts (walk n folder_url).1
       ∧ open_binary (ctx self) u = Returns c
       ∧ b = s3_bucket self
       ∧ k = s3_prefix self +:+ _get_relative_path urlparse_path self u.
Proof.
  intros Hst. destruct (store_after_origin _ _ _ _ _ _ Hst) as [?|Hput]; [by left|].
  right. exact (copy_folder_puts_fetched _ _ _ _ _ Hput).
Qed.

End WalkInvariants.

(** ** Relations between a frame's counters and the trace *)

Section FrameInvariant.

(** A relation between the frame before a run, the events of the run and
    the frame after it, that holds of the empty run and of two runs in
    sequence; and a condition on outcomes that ending normally meets. *)
Variable I : Locals → list Event → Locals → Prop.
Variable ok : Outcome unit → Prop.
Hypothesis I_refl : ∀ l, I l [] l.
Hypothesis I_trans : ∀ l t1 l1 t2 l2, I l t1 l1 → I l1 t2 l2 → I l (t1 ++ t2) l2.
Hypothesis ok_Ret : ok (Ret ()).

Lemma for_each_inv {A} (body : A → M unit) (xs : list A) (l : Locals) :
  (∀ x l', x ∈ xs → (body x l').2 ≠ OutOfFuel →
     ok (body x l').2 ∧ I l' (body x l').1.1 (body x l').1.2) →
  (for_each xs body l).2 ≠ OutOfFuel →
  ok (for_each xs body l).2 ∧ I l (for_each xs body l).1.1 (for_each xs body l).1.2.
Proof.
  revert l. induction xs as [|x xs IH]; intros l Hbody; [done|].
  cbn [for_each]. unfold mbind, M_bind.
  pose proof (Hbody x l (list_elem_of_here _ _)) as Hx.
  destruct (body x l) as [[t1 l1] [[]|e|]]; cbn in *; [| |done].
  - specialize (IH l1). destruct (for_each xs body l1) as [[t2 l2] o2]. cbn in *.
    intros Ho. destruct IH as [Hok HI]; [|done|].
    { intros y l' Hy. apply Hbody. by right. }
    destruct Hx as [_ Hx]; [done|]. split; [done|]. by eapply I_trans.
  - intros _. by apply Hx.
Qed.

End FrameInvariant.

Section Accounting.

Variable urlparse_path : string → string.
Variable self : SharePointToS3.

Local Abbreviation walk n := (copy_folder urlparse_path n self).
Local Abbreviation acc := (accounted (s3_client self)).

Lemma accepted_puts_app s3 t1 t2 :
  accepted_puts s3 (t1 ++ t2) = accepted_puts s3 t1 ++ accepted_puts s3 t2.
Proof. unfold accepted_puts. by rewrite put_attempts_app, filter_app. Qed.

Lemma accounted_refl l : acc l [] l.
Proof. unfold accounted. cbn. lia. Qed.

Lemma accounted_trans l t1 l1 t2 l2 : acc l t1 l1 → acc l1 t2 l2 → acc l (t1 ++ t2) l2.
Proof.
  unfold accounted. rewrite accepted_puts_app, error_records_app, !length_app. lia.
Qed.

Lemma copy_one_accounted (f : SPObject) (l : Locals) :
  acc l (copy_one urlparse_path self f l).1.1 (copy_one urlparse_path self f l).1.2.
Proof.
  destruct (properties f !! "ServerRelativeUrl") as [u|] eqn:Hu.
  2:{ rewrite (copy_one_no_path _ _ _ _ Hu). apply accounted_refl. }
  rewrite (copy_one_run _ _ _ _ _ Hu). cbn zeta.
  destruct (open_binary (ctx self) u) as [content|e].
  2:{ unfold accounted, bump. cbn. lia. }
  destruct (put_object _ _ _ content) as [[]|e] eqn:Hput;
    unfold accounted, accepted_puts, bump; cbn [fst snd put_attempts omap list_omap];
    rewrite filter_cons, filter_nil;
    destruct (decide _) as [Hd|Hd]; unfold put_accepted in Hd; cbn [fst snd] in Hd;
    rewrite Hput in Hd; try done; cbn; lia.
Qed.

Lemma visit_accounted recurse (sub : SPObject) (l : Locals) :
  (∀ u t s e, recurse u = (t, Ret (s, e)) →
     s = Z.of_nat (length (accepted_puts (s3_client self) t))
     ∧ e = Z.of_nat (length (error_records t))) →
  (∀ u e, (recurse u).2 ≠ Raise e) →
  (visit_subfolder recurse sub l).2 ≠ OutOfFuel →
  acc l (visit_subfolder recurse sub l).1.1 (visit_subfolder recurse sub l).1.2.
Proof.
  intros Hrec Hnr. unfold visit_subfolder, getitem.
  destruct (properties sub !! "Name") as [name|]; [|intros; apply accounted_refl]. run.
  destruct (bool_decide (name ∉ special_folders)); [|intros; apply accounted_refl].
  destruct (properties sub !! "ServerRelativeUrl") as [u|]; [|intros; apply accounted_refl].
  run. specialize (Hrec u). specialize (Hnr u).
  destruct (recurse u) as [t [[s e]|e|]]; cbn in *.
  - intros _. destruct (Hrec t s e eq_refl) as [-> ->].
    unfold accounted. cbn. rewrite app_nil_r. lia.
  - by destruct (Hnr e).
  - done.
Qed.

Lemma accounted_get_folder l u : acc l [EvGetFolder u] l.
Proof. unfold accounted. cbn. lia. Qed.

Lemma accounted_log_error l m :
  acc l [EvLogError m] {| success_count := success_count l; error_count := error_count l + 1 |}.
Proof. unfold accounted. cbn. lia. Qed.

Lemma accounted_frame0 t l :
  acc frame0 t l →
  success_count l = Z.of_nat (length (accepted_puts (s3_client self) t))
  ∧ error_count l = Z.of_nat (length (error_records t)).
Proof. unfold accounted, frame0. cbn [success_count error_count]. lia. Qed.

Lemma copy_folder_accounted (n : nat) (folder_url : string) t s e :
  walk n folder_url = (t, Ret (s, e)) →
  s = Z.of_nat (length (accepted_puts (s3_client self) t))
  ∧ e = Z.of_nat (length (error_records t)).
Proof.
  revert folder_url t s e. induction n as [|n IH]; intros url t s e; [done|].
  destruct (get_folder (ctx self) url) as [folder|ex] eqn:Hget.
  2:{ rewrite (copy_folder_not_listed _ _ _ _ _ Hget). by intros [= <- <- <-]. }
  rewrite (copy_folder_listed _ _ _ _ _ Hget).
  set (r := (for_each (files folder) (copy_one urlparse_path self) ;;
             for_each (folders folder) (visit_subfolder (walk n))) frame0).
  assert (r.2 ≠ OutOfFuel → acc frame0 r.1.1 r.1.2) as Hr.
  { subst r. unfold mbind, M_bind.
    pose proof (for_each_inv acc (λ _, True) accounted_refl accounted_trans I
                  (copy_one urlparse_path self) (files folder) frame0) as Hfiles.
    destruct (for_each (files folder) _ frame0) as [[t1 l1] o1].
    assert (o1 ≠ OutOfFuel → acc frame0 t1 l1) as H1.
    { intros Ho. apply Hfiles; [|done]. intros f l' _ _. split; [done|].
      apply copy_one_accounted. }
    destruct o1 as [[]|e1|]; [|by apply H1|done].
    pose proof (for_each_inv acc (λ _, True) accounted_refl accounted_trans I
                  (visit_subfolder (walk n)) (folders folder) l1) as Hsubs.
    destruct (for_each (folders folder) _ l1) as [[t2 l2] o2].
    intros Ho. apply (accounted_trans _ _ l1); [by apply H1|].
    apply Hsubs; [|done]. intros sub l' _ Hsub. split; [done|].
    apply visit_accounted; [apply IH|apply copy_folder_no_raise|done]. }
  destruct r as [[t' l'] [[]|e'|]]; [| |done]; intros [= <- <- <-];
    cbn [fst snd] in Hr.
  - apply accounted_frame0.
    apply (accounted_trans _ [_] frame0); [apply accounted_get_folder|by apply Hr].
  - apply (accounted_frame0 _
             {| success_count := success_count l'; error_count := error_count l' + 1 |}).
    apply (accounted_trans _ [_] frame0); [apply accounted_get_folder|].
    apply (accounted_trans _ _ l'); [by apply Hr|apply accounted_log_error].
Qed.

(** The counts that [copy_folder] returns are those of its trace: the
    success count is the number of writes that the S3 client accepted and
    the error count is the number of error records logged; so neither is
    negative. *)
Theorem copy_folder_counts_match_trace (n : nat) (folder_url : string) t s e :
  walk n folder_url = (t, Ret (s, e)) →
  s = Z.of_nat (length (accepted_puts (s3_client self) t))
  ∧ e = Z.of_nat (length (error_records t))
  ∧ 0 <= s <= Z.of_nat (length (put_attempts t))
  ∧ 0 <= e.
Proof.
  intros Hrun. destruct (copy_folder_accounted _ _ _ _ _ Hrun) as [-> ->].
  split; [done|]. split; [done|]. split; [|lia]. split; [lia|].
  apply Nat2Z.inj_le. unfold accepted_puts. apply length_filter.
Qed.

End Accounting.

(** ** A walk on which nothing fails *)

Section AllSucceed.

Variable urlparse_path : string → string.
Variable self : SharePointToS3.

Local Abbreviation walk n := (copy_folder urlparse_path n self).
Local Abbreviation ok_run := (clean urlparse_path self).

Lemma clean_refl l : ok_run l [] l.
Proof. unfold clean, written_once. cbn. repeat split; try lia. constructor. Qed.

Lemma clean_trans l t1 l1 t2 l2 : ok_run l t1 l1 → ok_run l1 t2 l2 → ok_run l (t1 ++ t2) l2.
Proof.
  unfold clean, written_once.
  rewrite error_records_app, fetch_attempts_app, put_attempts_app, !length_app.
  intros (? & -> & ? & ?) (? & -> & ? & ?). repeat split; try done; try lia.
  by apply Forall2_app.
Qed.

Lemma for_each_all_Ret {A} (body : A → M unit) (xs : list A) (l : Locals) :
  (∀ x l', x ∈ xs → (body x l').2 = Ret () ∧ ok_run l' (body x l').1.1 (body x l').1.2) →
  (for_each xs body l).2 = Ret ()
  ∧ ok_run l (for_each xs body l).1.1 (for_each xs body l).1.2.
Proof.
  revert l. induction xs as [|x xs IH]; intros l Hbody.
  - split; [done|apply clean_refl].
  - cbn [for_each]. unfold mbind, M_bind.
    destruct (Hbody x l (list_elem_of_here _ _)) as [Ho Hc].
    destruct (body x l) as [[t1 l1] o1]. cbn [fst snd] in *. subst o1.
    destruct (IH l1) as [Ho2 Hc2]. { intros y l' Hy. apply Hbody. by right. }
    destruct (for_each xs body l1) as [[t2 l2] o2]. cbn [fst snd] in *.
    split; [done|]. by eapply clean_trans.
Qed.

Lemma copy_one_clean (f : SPObject) (l : Locals) :
  file_copies urlparse_path self f = true →
  (copy_one urlparse_path self f l).2 = Ret ()
  ∧ ok_run l (copy_one urlparse_path self f l).1.1 (copy_one urlparse_path self f l).1.2.
Proof.
  unfold file_copies, file_failure.
  destruct (properties f !! "ServerRelativeUrl") as [u|] eqn:Hu; [|done].
  rewrite (copy_one_run _ _ _ _ _ Hu). cbn zeta.
  destruct (open_binary (ctx self) u) as [c|e] eqn:Hfetch; [|done].
  destruct (put_object _ _ _ c) as [[]|e] eqn:Hput; [|done].
  intros _. split; [done|]. unfold clean, written_once, bump. cbn.
  repeat split; try lia. constructor; [|constructor]. by exists c.
Qed.

Lemma copy_folder_succeeds (d : nat) (folder_url : string) :
  walk_succeeds urlparse_path self d folder_url = true →
  ∃ t s, walk d folder_url = (t, Ret (s, 0)) ∧ ok_run frame0 t (bump frame0 (s, 0)).
Proof.
  revert folder_url. induction d as [|d IH]; intros url; [done|].
  cbn [walk_succeeds].
  destruct (get_folder (ctx self) url) as [folder|e] eqn:Hget; [|done].
  intros [Hfiles Hsubs]%andb_true_iff.
  rewrite forallb_forall in Hfiles. rewrite forallb_forall in Hsubs.
  rewrite (copy_folder_listed _ _ _ _ _ Hget). unfold mbind, M_bind.
  destruct (for_each_all_Ret (copy_one urlparse_path self) (files folder) frame0) as [Ho1 Hc1].
  { intros f l' Hf. apply copy_one_clean, Hfiles. by apply list_elem_of_In. }
  destruct (for_each (files folder) _ frame0) as [[t1 l1] o1]. cbn [fst snd] in *. subst o1.
  destruct (for_each_all_Ret (visit_subfolder (walk d)) (folders folder) l1) as [Ho2 Hc2].
  { intros sub l' Hsub. apply list_elem_of_In, Hsubs in Hsub.
    destruct (properties sub !! "Name") as [name|] eqn:Hname; [|done].
    destruct (decide (name ∈ special_folders)) as [Hsp|Hns].
    - rewrite visit_special; [split; [done|apply clean_refl]|].
      unfold is_special. rewrite Hname. by apply bool_decide_eq_true.
    - rewrite bool_decide_eq_false_2 in Hsub by done. cbn in Hsub.
      destruct (properties sub !! "ServerRelativeUrl") as [u|] eqn:Hu; [|done].
      destruct (IH u Hsub) as (t & s & Hrun & Hc).
      rewrite (visit_descends _ sub (t, (s, 0))); [|by exists name, u].
      split; [done|]. cbn [fst snd].
      unfold clean, bump, frame0 in *. cbn [success_count error_count fst snd] in *.
      destruct Hc as (_ & ? & ? & ?). repeat split; try done; lia. }
  destruct (for_each (folders folder) _ l1) as [[t2 l2] o2]. cbn [fst snd] in *. subst o2.
  pose proof (clean_trans _ _ _ _ _ Hc1 Hc2) as Hc.
  exists (EvGetFolder url :: t1 ++ t2), (success_count l2).
  assert (error_count l2 = 0) as He by (by destruct Hc as [-> _]).
  split; [unfold counts; by rewrite He|].
  unfold clean, written_once, bump, frame0 in *.
  cbn [success_count error_count fst snd] in *.
  destruct Hc as (_ & ? & ? & ?). cbn. repeat split; try done; lia.
Qed.

Lemma copy_folder_succeeds_le (d n : nat) (folder_url : string) :
  walk_succeeds urlparse_path self d folder_url = true → (d ≤ n)%nat →
  ∃ t s, walk n folder_url = (t, Ret (s, 0)) ∧ ok_run frame0 t (bump frame0 (s, 0)).
Proof.
  intros Hd Hle. destruct (copy_folder_succeeds d folder_url Hd) as (t & s & Hrun & Hc).
  exists t, s. split; [|done]. by apply (copy_folder_fuel_le _ _ d).
Qed.

(** When no call that the walk makes fails (the folders it reaches are
    listed, their files carry their path, are fetched and are written,
    their subfolders carry a name and, unless special, a path) and the tree
    it reaches has fewer than [d] levels, the walk returns at every fuel
    from [d] on, with no error counted and none logged; its success count
    is the number of files fetched, and its write attempts are, in order,
    one per file fetched: that file's content under that file's key, in the
    configured bucket, accepted. *)
Theorem copy_folder_all_succeed (d n : nat) (folder_url : string) :
  walk_succeeds urlparse_path self d folder_url = true → (d ≤ n)%nat →
  ∃ t s, walk n folder_url = (t, Ret (s, 0))
       ∧ error_records t = []
       ∧ s = Z.of_nat (length (fetch_attempts t))
       ∧ written_once urlparse_path self t.
Proof.
  intros Hd Hle.
  destruct (copy_folder_succeeds_le d n folder_url Hd Hle) as (t & s & Hrun & Hc).
  exists t, s. split; [done|].
  unfold clean, bump, frame0 in Hc. cbn [success_count error_count fst snd] in Hc.
  destruct Hc as (_ & ? & ? & ?). repeat split; try done; lia.
Qed.

End AllSucceed.

(** ** The constructor and [main] *)

Section Main.

Variable urlparse_path : string → string.
Variable sdk : Sdk.

(** The profile with which the S3 client is made: a profile name that is
    the empty string counts as no profile. *)
Lemma new_SharePointToS3_empty_profile (url user pw bucket prefix : string) :
  new_SharePointToS3 sdk url user pw bucket prefix (Some "")
  = new_SharePointToS3 sdk url user pw bucket prefix None.
Proof. reflexivity. Qed.

(** The constructor emits log records only. *)
Lemma new_SharePointToS3_trace (url user pw bucket prefix : string) aws_profile :
  let t := (new_SharePointToS3 sdk url user pw bucket prefix aws_profile).1 in
  folder_requests t = [] ∧ fetch_attempts t = [] ∧ put_attempts t = [].
Proof.
  unfold new_SharePointToS3.
  destruct (sp_connect sdk url user pw) as [[c props]|e]; [|done].
  destruct (props !! "Title"); [|done].
  destruct (boto_client sdk _) as [s3|e]; [|done].
  by destruct (head_bucket sdk s3 bucket).
Qed.

(** What the constructor has logged when it raises, and when it returns. *)
Lemma new_SharePointToS3_raises_log (url user pw bucket prefix : string) aws_profile t e :
  new_SharePointToS3 sdk url user pw bucket prefix aws_profile = (t, SetupRaises e) →
  ∃ m, last t = Some (EvLogError m) ∧ error_records t = [m].
Proof.
  unfold new_SharePointToS3.
  destruct (sp_connect sdk url user pw) as [[c props]|e0]; [|intros [= <- <-]; by eexists].
  destruct (props !! "Title"); [|intros [= <- <-]; by eexists].
  destruct (boto_client sdk _) as [s3|e0]; [|intros [= <- <-]; by eexists].
  destruct (head_bucket sdk s3 bucket) as [[]|e0]; [done|intros [= <- <-]; by eexists].
Qed.

Lemma new_SharePointToS3_returns_log (url user pw bucket prefix : string) aws_profile t self :
  new_SharePointToS3 sdk url user pw bucket prefix aws_profile = (t, SetupReturns self) →
  error_records t = [].
Proof.
  unfold new_SharePointToS3.
  destruct (sp_connect sdk url user pw) as [[c props]|e0]; [|done].
  destruct (props !! "Title"); [|done].
  destruct (boto_client sdk _) as [s3|e0]; [|done].
  destruct (head_bucket sdk s3 bucket) as [[]|e0]; [|done].
  by intros [= <- <-].
Qed.

(** When the constructor fails, the exception it raises is the one raised
    by the first SDK call that failed (or the [KeyError] of the missing
    site title); exactly one error record is logged, as the last event; and
    the S3 calls are made only after the SharePoint connection succeeded. *)
Theorem new_SharePointToS3_failure (url user pw bucket prefix : string) aws_profile t e :
  new_SharePointToS3 sdk url user pw bucket prefix aws_profile = (t, SetupRaises e) →
  (∃ m, last t = Some (EvLogError m) ∧ error_records t = [m])
  ∧ (sp_connect sdk url user pw = SetupRaises e
     ∨ (∃ c props, sp_connect sdk url user pw = SetupReturns (c, props)
          ∧ (props !! "Title" = None ∧ e = OtherException (KeyError "Title")
             ∨ is_Some (props !! "Title")
               ∧ ∃ profile,
                   boto_client sdk profile = SetupRaises e
                   ∨ ∃ s3, boto_client sdk profile = SetupReturns s3
                           ∧ head_bucket sdk s3 bucket = SetupRaises e))).
Proof.
  intros Hnew. split; [by eapply new_SharePointToS3_raises_log|].
  revert Hnew. unfold new_SharePointToS3.
  destruct (sp_connect sdk url user pw) as [[c props]|e0] eqn:Hc.
  2:{ intros [= <- <-]. by left. }
  destruct (props !! "Title") as [title|] eqn:Htitle.
  2:{ intros [= <- <-]. right. exists c, props. split; [done|by left]. }
  match goal with |- context [boto_client sdk ?p] => set (profile := p) end.
  destruct (boto_client sdk profile) as [s3|e0] eqn:Hs3.
  2:{ intros [= <- <-]. right. exists c, props. split; [done|].
      right. split; [done|]. exists profile. by left. }
  destruct (head_bucket sdk s3 bucket) as [[]|e0] eqn:Hhead; [done|].
  intros [= <- <-]. right. exists c, props. split; [done|].
  right. split; [done|]. exists profile. right. by exists s3.
Qed.

(** The constructor returns an object exactly when the SharePoint
    connection, the site title, the making of the S3 client and the check
    of the bucket all succeed; the object then holds the two clients, the
    bucket, and the normalized prefix, and two info records and no error
    record are logged. *)
Theorem new_SharePointToS3_success (url user pw bucket prefix : string) aws_profile :
  let profile := match aws_profile with
                 | Some name => if decide (name = "") then None else Some name
                 | None => None
                 end in
  ∀ t self,
    new_SharePointToS3 sdk url user pw bucket prefix aws_profile = (t, SetupReturns self)
    ↔ ∃ c props title s3,
        sp_connect sdk url user pw = SetupReturns (c, props)
        ∧ props !! "Title" = Some title
        ∧ boto_client sdk profile = SetupReturns s3
        ∧ head_bucket sdk s3 bucket = SetupReturns ()
        ∧ t = [EvLogInfo ("Connected to SharePoint site: " +:+ title);
               EvLogInfo ("Connected to S3 bucket: " +:+ bucket)]
        ∧ self = {| sharepoint_url := url; username := user; password := pw;
                    s3_bucket := bucket; s3_prefix := normalize_prefix prefix;
                    ctx := c; s3_client := s3 |}.
Proof.
  intros profile t self. unfold new_SharePointToS3. fold profile. split.
  - destruct (sp_connect sdk url user pw) as [[c props]|e0] eqn:Hc; [|done].
    destruct (props !! "Title") as [title|] eqn:Htitle; [|done].
    destruct (boto_client sdk profile) as [s3|e0] eqn:Hs3; [|done].
    destruct (head_bucket sdk s3 bucket) as [[]|e0] eqn:Hhead; [|done].
    intros [= <- <-]. by exists c, props, title, s3.
  - intros (c & props & title & s3 & -> & -> & -> & -> & -> & ->). done.
Qed.

(** The exit status of [main]: no exception leaves it; the status is 0 or
    1; it is 0 exactly when the object was constructed and the transfer
    returned with no error counted. *)
Theorem main_exit_status (fuel : nat) (args : Args) t o :
  main urlparse_path sdk fuel args = (t, o) →
  (∀ e, o ≠ Raise e)
  ∧ (o = Ret 0 ∨ o = Ret 1 ∨ o = OutOfFuel)
  ∧ (o = Ret 0 ↔
     ∃ t1 transfer t2 s,
       new_SharePointToS3 sdk (arg_sharepoint_url args) (arg_sharepoint_username args)
         (arg_sharepoint_password args) (arg_s3_bucket args) (arg_s3_prefix args)
         (arg_aws_profile args) = (t1, SetupReturns transfer)
       ∧ start_transfer urlparse_path fuel transfer (arg_sharepoint_folder args)
         = (t2, Ret (s, 0))).
Proof.
  unfold main. destruct (new_SharePointToS3 _ _ _ _ _ _ _) as [t1 [transfer|e]].
  2:{ intros [= <- <-]. split; [done|]. split; [auto|].
      split; [done|]. by intros (? & ? & ? & ? & [=] & _). }
  destruct (start_transfer _ _ _ _) as [t2 o2] eqn:Hst.
  rewrite start_transfer_unfold in Hst.
  destruct (copy_folder _ _ _ _) as [t3 o3] eqn:Hwalk. cbn [fst snd] in Hst.
  injection Hst as <- <-.
  destruct o3 as [[s e]| e |].
  - destruct (copy_folder_accounted _ _ _ _ _ _ _ Hwalk) as [_ He].
    intros [= <- <-]. split; [done|].
    destruct (decide (e > 0)) as [Hpos|Hzero].
    + split; [auto|]. split; [done|].
      intros (? & ? & ? & ? & [= <- <-] & Hst).
      rewrite start_transfer_unfold, Hwalk in Hst. injection Hst as _ _ ->. lia.
    + split; [auto|]. split; [|done]. intros _.
      assert (e = 0) as -> by lia. do 4 eexists. split; [done|].
      by rewrite start_transfer_unfold, Hwalk.
  - pose proof (copy_folder_no_raise urlparse_path transfer fuel
                  (start_url urlparse_path transfer (arg_sharepoint_folder args)) e) as Hnr.
    by rewrite Hwalk in Hnr.
  - intros [= <- <-]. split; [done|]. split; [auto|].
    split; [done|]. intros (? & ? & ? & ? & [= <- <-] & Hst).
    by rewrite start_transfer_unfold, Hwalk in Hst.
Qed.

(** When the constructor fails, [main] exits with status 1 without asking
    the SharePoint client for any folder, fetching any file or attempting
    any write; the failure is logged by the constructor and once more by
    [main], with the text of the exception. *)
Theorem main_setup_failure (fuel : nat) (args : Args) t1 e :
  new_SharePointToS3 sdk (arg_sharepoint_url args) (arg_sharepoint_username args)
    (arg_sharepoint_password args) (arg_s3_bucket args) (arg_s3_prefix args)
    (arg_aws_profile args) = (t1, SetupRaises e) →
  ∃ t, main urlparse_path sdk fuel args = (t, Ret 1)
     ∧ folder_requests t = [] ∧ fetch_attempts t = [] ∧ put_attempts t = []
     ∧ last t = Some (EvLogError ("Transfer failed: " +:+ str_setup_exn e))
     ∧ length (error_records t) = 2%nat.
Proof.
  intros Hnew.
  pose proof (new_SharePointToS3_trace (arg_sharepoint_url args)
                (arg_sharepoint_username args) (arg_sharepoint_password args)
                (arg_s3_bucket args) (arg_s3_prefix args) (arg_aws_profile args)) as Htr.
  destruct (new_SharePointToS3_raises_log _ _ _ _ _ _ _ _ Hnew) as (m & _ & Hm).
  unfold main. rewrite Hnew in *. cbn [fst] in Htr. destruct Htr as (Hf & Hfe & Hp).
  eexists. split; [done|].
  rewrite last_snoc. unfold folder_requests, fetch_attempts, put_attempts, error_records in *.
  rewrite !omap_app, Hf, Hfe, Hp, Hm. done.
Qed.

Lemma error_records_info (m : string) (t : list Event) :
  error_records (EvLogInfo m :: t) = error_records t.
Proof. reflexivity. Qed.

(** When the object is constructed, no call that the transfer makes fails
    and the folder tree it reaches has fewer than [d] levels, [main] with
    fuel from [d] on exits with status 0 and logs no error record. *)
Theorem main_all_succeed (fuel d : nat) (args : Args) t1 transfer :
  new_SharePointToS3 sdk (arg_sharepoint_url args) (arg_sharepoint_username args)
    (arg_sharepoint_password args) (arg_s3_bucket args) (arg_s3_prefix args)
    (arg_aws_profile args) = (t1, SetupReturns transfer) →
  walk_succeeds urlparse_path transfer d
    (start_url urlparse_path transfer (arg_sharepoint_folder args)) = true →
  (d ≤ fuel)%nat →
  ∃ t, main urlparse_path sdk fuel args = (t, Ret 0) ∧ error_records t = [].
Proof.
  intros Hnew Hd Hle. unfold main. rewrite Hnew.
  pose proof (new_SharePointToS3_returns_log _ _ _ _ _ _ _ _ Hnew) as Ht1.
  rewrite start_transfer_unfold.
  destruct (copy_folder_succeeds_le urlparse_path transfer d fuel _ Hd Hle)
    as (t3 & s & Hwalk & Hc).
  rewrite Hwalk. cbn [fst snd]. destruct Hc as (_ & Herr & _).
  eexists. split; [done|].
  rewrite !error_records_app, Ht1, !error_records_info, Herr. done.
Qed.

End Main.

(** ** The further theorems at concrete inputs *)

Example test_main_success :
  (main test_urlparse_path test_sdk 2 test_args).2 = Ret 0.
Proof. reflexivity. Qed.

Example test_main_missing_bucket :
  main test_urlparse_path test_sdk_404 2 test_args
  = ([EvLogInfo "Connected to SharePoint site: Test Site";
      EvLogError "S3 bucket test-bucket does not exist";
      EvLogError "Transfer failed: Not Found"], Ret 1).
Proof. reflexivity. Qed.

Lemma normalize_prefix_trailing_seps_witness :
  normalize_prefix ("data/in" +:+ seps 3) = normalize_prefix "data/in".
Proof. apply (proj1 (normalize_prefix_trailing_seps "data/in" 3)). discriminate. Defined.

Lemma get_relative_path_fixed_point_witness :
  _get_relative_path test_urlparse_path test_self
    (_get_relative_path test_urlparse_path test_self "/sites/test/sites/test/a.txt")
  = _get_relative_path test_urlparse_path test_self "/sites/test/sites/test/a.txt".
Proof.
  apply (get_relative_path_fixed_point test_urlparse_path test_self). right. reflexivity.
Defined.

Lemma copy_folder_counts_match_trace_witness :
  let t := (copy_folder test_urlparse_path 1 test_self_error "/sites/test/Shared Documents").1 in
  1 = Z.of_nat (length (accepted_puts (s3_client test_self_error) t))
  ∧ 1 = Z.of_nat (length (error_records t))
  ∧ 0 <= 1 <= Z.of_nat (length (put_attempts t))
  ∧ 0 <= 1.
Proof.
  apply (copy_folder_counts_match_trace test_urlparse_path test_self_error 1
           "/sites/test/Shared Documents").
  reflexivity.
Defined.

Lemma copy_folder_writes_what_it_fetched_witness :
  ∃ u, u ∈ fetch_attempts
             (copy_folder test_urlparse_path 1 test_self_error "/sites/test/Shared Documents").1
     ∧ open_binary (ctx test_self_error) u = Returns test_content
     ∧ "test-bucket" = s3_bucket test_self_error
     ∧ "test-prefix/Shared Documents/file1.txt"
       = s3_prefix test_self_error +:+ _get_relative_path test_urlparse_path test_self_error u
     ∧ startswith "test-prefix/Shared Documents/file1.txt" (s3_prefix test_self_error) = true.
Proof.
  apply (copy_folder_writes_what_it_fetched test_urlparse_path test_self_error 1
           "/sites/test/Shared Documents").
  vm_compute. left.
Defined.

Lemma copy_folder_store_frame_witness :
  store_after (s3_client test_self)
    (copy_folder test_urlparse_path 2 test_self "/sites/test/Shared Documents").1
    (<[("test-bucket", "archive/old.txt") := test_content]> ∅)
    !! ("test-bucket", "archive/old.txt")
  = (<[("test-bucket", "archive/old.txt") := test_content]> ∅
       : gmap (string * string) bytes) !! ("test-bucket", "archive/old.txt").
Proof.
  apply (copy_folder_store_frame test_urlparse_path test_self 2
           "/sites/test/Shared Documents"). right. reflexivity.
Defined.

Lemma copy_folder_all_succeed_witness :
  ∃ t s, copy_folder test_urlparse_path 3 test_self_tree_only "/sites/test/Shared Documents"
         = (t, Ret (s, 0))
       ∧ error_records t = []
       ∧ s = Z.of_nat (length (fetch_attempts t))
       ∧ written_once test_urlparse_path test_self_tree_only t.
Proof.
  apply (copy_folder_all_succeed test_urlparse_path test_self_tree_only 2 3
           "/sites/test/Shared Documents").
  - reflexivity.
  - lia.
Defined.

Example test_tree_only_result :
  (copy_folder test_urlparse_path 3 test_self_tree_only "/sites/test/Shared Documents").2
  = Ret (3, 0).
Proof. reflexivity. Qed.

Lemma new_SharePointToS3_failure_witness :
  (∃ m, last [EvLogInfo "Connected to SharePoint site: Test Site";
              EvLogError "S3 bucket test-bucket does not exist"] = Some (EvLogError m)
      ∧ error_records [EvLogInfo "Connected to SharePoint site: Test Site";
                       EvLogError "S3 bucket test-bucket does not exist"] = [m]).
Proof.
  apply (new_SharePointToS3_failure test_sdk_404
           "https://test.sharepoint.com/sites/test" "test@example.com" "password"
           "test-bucket" "test-prefix" None _ (BotoClientError (Some "404") "Not Found")).
  reflexivity.
Defined.

Lemma new_SharePointToS3_success_witness :
  ∃ c props title s3,
    sp_connect test_sdk "https://test.sharepoint.com/sites/test" "test@example.com" "password"
    = SetupReturns (c, props)
    ∧ props !! "Title" = Some title
    ∧ boto_client test_sdk None = SetupReturns s3
    ∧ head_bucket test_sdk s3 "test-bucket" = SetupReturns ()
    ∧ [EvLogInfo "Connected to SharePoint site: Test Site";
       EvLogInfo "Connected to S3 bucket: test-bucket"]
      = [EvLogInfo ("Connected to SharePoint site: " +:+ title);
         EvLogInfo ("Connected to S3 bucket: " +:+ "test-bucket")]
    ∧ test_self = {| sharepoint_url := "https://test.sharepoint.com/sites/test";
                     username := "test@example.com"; password := "password";
                     s3_bucket := "test-bucket"; s3_prefix := normalize_prefix "test-prefix";
                     ctx := c; s3_client := s3 |}.
Proof.
  apply (new_SharePointToS3_success test_sdk "https://test.sharepoint.com/sites/test"
           "test@example.com" "password" "test-bucket" "test-prefix" None).
  reflexivity.
Defined.

Lemma main_exit_status_witness :
  ∃ t1 transfer t2 s,
    new_SharePointToS3 test_sdk (arg_sharepoint_url test_args)
      (arg_sharepoint_username test_args) (arg_sharepoint_password test_args)
      (arg_s3_bucket test_args) (arg_s3_prefix test_args) (arg_aws_profile test_args)
    = (t1, SetupReturns transfer)
    ∧ start_transfer test_urlparse_path 2 transfer (arg_sharepoint_folder test_args)
      = (t2, Ret (s, 0)).
Proof.
  apply (main_exit_status test_urlparse_path test_sdk 2 test_args
           (main test_urlparse_path test_sdk 2 test_args).1 (Ret 0)).
  - reflexivity.
  - reflexivity.
Defined.

Lemma main_setup_failure_witness :
  ∃ t, main test_urlparse_path test_sdk_404 2 test_args = (t, Ret 1)
     ∧ folder_requests t = [] ∧ fetch_attempts t = [] ∧ put_attempts t = []
     ∧ last t = Some (EvLogError ("Transfer failed: "
                                  +:+ str_setup_exn (BotoClientError (Some "404") "Not Found")))
     ∧ length (error_records t) = 2%nat.
Proof.
  apply (main_setup_failure test_urlparse_path test_sdk_404 2 test_args
           [EvLogInfo "Connected to SharePoint site: Test Site";
            EvLogError "S3 bucket test-bucket does not exist"]).
  reflexivity.
Defined.

Lemma main_all_succeed_witness :
  ∃ t, main test_urlparse_path test_sdk_tree_only 3 test_args = (t, Ret 0)
     ∧ error_records t = [].
Proof.
  apply (main_all_succeed test_urlparse_path test_sdk_tree_only 3 2 test_args
           [EvLogInfo "Connected to SharePoint site: Test Site";
            EvLogInfo "Connected to S3 bucket: test-bucket"]
           test_self_tree_only).
  - reflexivity.
  - reflexivity.
  - lia.
Defined.

Lemma copy_folder_store_content_witness :
  (∅ : gmap (string * string) bytes)
    !! ("test-bucket", "test-prefix/Shared Documents/file1.txt") = Some test_content
  ∨ ∃ u, u ∈ fetch_attempts
               (copy_folder test_urlparse_path 2 test_self "/sites/test/Shared Documents").1
       ∧ open_binary (ctx test_self) u = Returns test_content
       ∧ "test-bucket" = s3_bucket test_self
       ∧ "test-prefix/Shared Documents/file1.txt"
         = s3_prefix test_self +:+ _get_relative_path test_urlparse_path test_self u.
Proof.
  apply (copy_folder_store_content test_urlparse_path test_self 2
           "/sites/test/Shared Documents" ∅).
  reflexivity.
Defined.

(** ** The walk under any Python exception *)

Section PyFacts.

Variable urlparse_path : string → string.
Variable self : SharePointToS3.
Variable py : PyClients.

Local Abbreviation base := (lower self py).

Ltac py_run := unfold mbind, PyM_bind, M_bind, mret, PyM_ret, M_ret, lift, up3, raise, emit,
  py_of_reply, py_str, py_call, logger_info, logger_error, add_success, add_error,
  read_locals, call, of_reply; cbn.

(** A listing interrupted by an exception that is not an instance of
    [Exception]: line 152 does not catch it, and it leaves [copy_folder]. *)
Lemma py_copy_folder_base_exception (n : nat) (folder_url name : string) :
  py_get_folder py folder_url = PyRaises (PyBaseException name) →
  py_copy_folder urlparse_path self py (S n) folder_url
  = ([EvGetFolder folder_url], PyRaise (PyBaseException name)).
Proof. intros Hget. cbn [py_copy_folder]. unfold py_try_except. py_run. by rewrite Hget. Qed.

Hypothesis Hplain : plain_clients py.

Lemma py_copy_one_lower (f : SPObject) (l : Locals) :
  py_copy_one urlparse_path self py f l = up3 (copy_one urlparse_path base f l).
Proof.
  destruct Hplain as (_ & Hfetch & Hput).
  unfold py_copy_one, copy_one, py_try_except, try_except, getitem,
    call_open_binary, call_put_object.
  destruct (properties f !! "ServerRelativeUrl") as [u|]; [|done]. py_run.
  specialize (Hfetch u).
  destruct (py_open_binary py u) as [c|[e|r|name]]; try done. cbn.
  specialize (Hput (s3_bucket self)
                (s3_prefix self +:+ _get_relative_path urlparse_path self u) c).
  by destruct (py_put_object py _ _ c) as [[]|[e|r|name]].
Qed.

Lemma py_for_each_lower {A} (pybody : A → PyM unit) (body : A → M unit) xs l :
  (∀ x l', pybody x l' = up3 (body x l')) →
  py_for_each xs pybody l = up3 (for_each xs body l).
Proof.
  intros Hbody. revert l. induction xs as [|x xs IH]; intros l; [done|].
  cbn [py_for_each for_each]. unfold mbind, PyM_bind, M_bind. rewrite Hbody.
  destruct (body x l) as [[t1 l1] [[]|e|]]; try done. cbn [up3]. rewrite IH.
  by destruct (for_each xs body l1) as [[t2 l2] [[]|e|]].
Qed.

Lemma py_visit_lower pyrec recurse (sub : SPObject) (l : Locals) :
  (∀ u, pyrec u = up (recurse u)) →
  py_visit_subfolder pyrec sub l = up3 (visit_subfolder recurse sub l).
Proof.
  intros Hrec. unfold py_visit_subfolder, visit_subfolder, getitem.
  destruct (properties sub !! "Name") as [name|]; [|done]. py_run.
  destruct (bool_decide (name ∉ special_folders)); [|done].
  destruct (properties sub !! "ServerRelativeUrl") as [u|]; [|done]. py_run.
  rewrite Hrec. by destruct (recurse u) as [t [[s e]|e|]].
Qed.

(** Under clients that raise only printable instances of [Exception], the
    walk is the walk of the embedding over [Exn]. *)
Lemma py_copy_folder_lower (n : nat) (folder_url : string) :
  py_copy_folder urlparse_path self py n folder_url
  = up (copy_folder urlparse_path n base folder_url).
Proof.
  revert folder_url. induction n as [|n IH]; intros url; [done|].
  cbn [py_copy_folder copy_folder].
  unfold py_try_except, try_except, call_get_folder. py_run.
  destruct Hplain as (Hlist & _). specialize (Hlist url).
  destruct (py_get_folder py url) as [folder|[e|r|name]]; try done. cbn.
  rewrite (py_for_each_lower _ (copy_one urlparse_path base)) by apply py_copy_one_lower.
  destruct (for_each (files folder) _ _) as [[t1 l1] [[]|e1|]]; try done. cbn.
  rewrite (py_for_each_lower _ (visit_subfolder (copy_folder urlparse_path n base)))
    by (intros; by apply py_visit_lower).
  by destruct (for_each (folders folder) _ l1) as [[t2 l2] [[]|e2|]].
Qed.

Lemma py_tree_height_lower (d : nat) (folder_url : string) :
  py_tree_height_lt py d folder_url = tree_height_lt base d folder_url.
Proof.
  revert folder_url. induction d as [|d IH]; intros url; [done|].
  cbn [py_tree_height_lt tree_height_lt]. cbn.
  destruct (py_get_folder py url) as [folder|[e|r|name]]; try done. cbn.
  induction (folders folder) as [|sub subs IHs]; [done|]. cbn. rewrite IHs.
  destruct (properties sub !! "Name"); [|done].
  destruct (properties sub !! "ServerRelativeUrl"); [|done]. by rewrite IH.
Qed.

Lemma py_copy_folder_no_raise (n : nat) (folder_url : string) (e : PyExn) :
  (py_copy_folder urlparse_path self py n folder_url).2 ≠ PyRaise e.
Proof.
  rewrite py_copy_folder_lower.
  pose proof (copy_folder_no_raise urlparse_path base n folder_url) as Hnr.
  destruct (copy_folder urlparse_path n base folder_url) as [t [[s c]|e0|]]; try done.
  by destruct (Hnr e0).
Qed.

Lemma py_copy_folder_returns (d n : nat) (folder_url : string) :
  py_tree_height_lt py d folder_url = true → (d ≤ n)%nat →
  ∃ t s e, py_copy_folder urlparse_path self py n folder_url = (t, PyRet (s, e))
           ∧ 0 <= s ∧ 0 <= e.
Proof.
  rewrite py_tree_height_lower. intros Hd Hle.
  destruct (copy_folder_returns urlparse_path base n folder_url) as (t & s & e & Hrun & ? & ?).
  { by apply (tree_height_lt_le _ d). }
  exists t, s, e. by rewrite py_copy_folder_lower, Hrun.
Qed.

End PyFacts.



(** An interrupt while the second file is fetched leaves [copy_folder] too,
    after the first file was written. *)
Example py_copy_folder_interrupt_during_fetch :
  let r := py_copy_folder test_urlparse_path test_self test_py_interrupt_fetch 1
             "/sites/test/Shared Documents" in
  r.2 = PyRaise (PyBaseException "KeyboardInterrupt")
  ∧ put_attempts r.1
    = [("test-bucket", "test-prefix/Shared Documents/file1.txt", test_content)].
Proof. split; reflexivity. Qed.

(** A listing error whose [__str__] raises: line 153 raises while it
    formats the record, from inside the [except] clause. *)
Example py_copy_folder_unprintable :
  py_copy_folder test_urlparse_path test_self test_py_unprintable 1
    "/sites/test/Shared Documents"
  = ([EvGetFolder "/sites/test/Shared Documents"],
     PyRaise (PyException (ClientError "__str__ failed"))).
Proof. reflexivity. Qed.

Lemma test_py_faulty_plain : plain_clients test_py_faulty.
Proof.
  split; [|split].
  - intros u. cbn. by destruct (decide _).
  - intros u. cbn. by destruct (decide _).
  - done.
Qed.

Example test_py_faulty_result :
  let r := py_copy_folder test_urlparse_path test_self test_py_faulty 2
             "/sites/test/Shared Documents" in
  r.2 = PyRet (1, 3)
  ∧ error_records r.1
    = ["Error copying file /sites/test/Shared Documents/file2.txt: Test error";
       "Error processing folder /sites/test/Shared Documents/subfolder: Access denied";
       "Error processing folder /sites/test/Shared Documents: 'Name'"].
Proof. split; reflexivity. Qed.

